(** * A shallow embedding of the polling service

    The repository is a small TypeScript program: a generic
    [PollingService<T>] (services/polling.service.ts), a configuration loader
    with two zod schemas (config.ts) and an entry point (index.ts).

    Every asynchronous method is embedded as a computation in a state and
    exception monad: one invocation is followed from its first statement to
    its last, each [await] being sequential inside that invocation.  What the
    outside world answers (the HTTP GET, the HTTP POST, the clock, the
    process environment) is read from a [World]; what the program does to
    the outside is appended to a trace of events.  A call that is not
    awaited ([this.runPolling()] in [start] and in the scheduler's callback)
    is an event of the trace; the cycle it starts is the computation
    [PollingService.runPolling], followed on its own.

    The libraries are embedded by what they document, as far as the program
    uses them: zod 3 (issues, their objects and their messages), axios (a
    request resolves with its data or rejects with an error of its own),
    date-fns [format], node-cron (the minute field of a pattern).
    [console.log] and [console.error] do not throw. *)

From Stdlib Require Import ZArith Lia Ascii String DecimalString DecimalPos.
From stdpp Require Import base strings list gmap.

Set Warnings "-register-all".

Open Scope Z_scope.

(** ** JavaScript values *)

Module Js.

(** A JavaScript number.  [NInt z] is the integral value [z], zero being the
    positive zero; the program only tests the other values for their class
    and their sign, so that is all that is kept of them. *)
Inductive number :=
| NInt (z : Z)
| NNegZero
| NFrac (neg : bool)
| NInf (neg : bool)
| NNaN.

(** The result of [JSON.parse], and the bodies handed to [axios.post].  An
    object keeps its keys in insertion order. *)
Inductive json :=
| JNull
| JBool (b : bool)
| JNum (n : number)
| JStr (s : string)
| JArr (items : list json)
| JObj (fields : list (string * json)).

(** [obj[key]]; [None] is [undefined]. *)
Fixpoint get_field (key : string) (fields : list (string * json)) : option json :=
  match fields with
  | [] => None
  | (k, v) :: rest => if String.eqb k key then Some v else get_field key rest
  end.

(** [2^53], up to which every integer is a double and prints exactly. *)
Definition MAX_SAFE : Z := 9007199254740992.

Definition is_safe (z : Z) : bool := Z.abs z <=? MAX_SAFE.

Definition decimal (z : Z) : string := NilZero.string_of_int (Z.to_int z).

(** The parts of the JavaScript engine and of the libraries that are left
    abstract: the inputs on which the functions below do not compute are
    answered by the engine. *)
Record Engine := {
  (** [Number(s)] for a string that is not a plain decimal integer *)
  Number_other : string -> number;
  (** [Number(v)] for an array whose conversion to a string returns *)
  Number_array : list json -> number;
  (** [String(n)] outside the safe integers *)
  toString_other : number -> string;
  (** [n.toLocaleString('en-US')] outside the safe integers *)
  toLocaleString_other : number -> string;
  (** whether [new URL(s)] succeeds *)
  is_url : string -> bool;
  (** node-cron on a pattern whose step is not a run of digits: the step it
      schedules, or [None] when it refuses the pattern *)
  cron_other : string -> option Z;
}.

Definition digit_value (c : ascii) : option Z :=
  let n := Z.of_N (N_of_ascii c) in
  if (48 <=? n) && (n <=? 57) then Some (n - 48) else None.

Fixpoint digits_value (acc : Z) (s : string) : option Z :=
  match s with
  | EmptyString => Some acc
  | String c rest =>
      match digit_value c with
      | Some d => digits_value (10 * acc + d) rest
      | None => None
      end
  end.

(** A non-empty run of decimal digits, with an optional minus sign. *)
Definition decimal_integer (s : string) : option Z :=
  match s with
  | EmptyString => None
  | String "-" EmptyString => None
  | String "-" rest => Z.opp <$> digits_value 0 rest
  | _ => digits_value 0 s
  end.

(** [Number(s)] on a string: a decimal integer in the safe range converts
    exactly; every other string (blank, fraction, exponent, hexadecimal,
    [Infinity], [-0], not a number at all) is the engine's. *)
Definition Number_string (E : Engine) (s : string) : number :=
  match decimal_integer s with
  | Some z =>
      if is_safe z && negb (String.prefix "-0" s) then NInt z else Number_other E s
  | None => Number_other E s
  end.

(** Whether converting [v] to a primitive throws a TypeError.  A value that
    comes from JSON holds no function: an object with a key [toString] of its
    own has no callable [toString] and, [valueOf] returning the object itself,
    no primitive value; an array is joined, converting each of its items. *)
Fixpoint no_primitive (v : json) : bool :=
  match v with
  | JObj fields =>
      match get_field "toString" fields with
      | Some _ => true
      | None => false
      end
  | JArr items => existsb no_primitive items
  | _ => false
  end.

(** Whether [Number(v)] throws; [None] is [undefined]. *)
Definition Number_throws (v : option json) : bool :=
  match v with
  | Some j => no_primitive j
  | None => false
  end.

(** [Number(v)] as [z.coerce.number()] applies it, where it returns, that is
    unless [Number_throws v]; [None] is [undefined]. *)
Definition Number (E : Engine) (v : option json) : number :=
  match v with
  | None => NNaN
  | Some JNull => NInt 0
  | Some (JBool b) => NInt (if b then 1 else 0)
  | Some (JNum n) => n
  | Some (JStr s) => Number_string E s
  | Some (JArr items) => Number_array E items
  | Some (JObj _) => NNaN
  end.

(** [`${n}`] *)
Definition Number_toString (E : Engine) (n : number) : string :=
  match n with
  | NInt z => if is_safe z then decimal z else toString_other E n
  | NNegZero => "0"
  | NNaN => "NaN"
  | NInf neg => if neg then "-Infinity" else "Infinity"
  | NFrac _ => toString_other E n
  end.

(** Commas between groups of three digits, counted from the right. *)
Fixpoint group3_rev (ds : list ascii) : list ascii :=
  match ds with
  | a :: b :: c :: rest =>
      match rest with
      | [] => ds
      | _ :: _ => a :: b :: c :: ","%char :: group3_rev rest
      end
  | _ => ds
  end.

Definition group_thousands (digits : string) : string :=
  string_of_list_ascii (rev (group3_rev (rev (list_ascii_of_string digits)))).

(** [n.toLocaleString('en-US')] *)
Definition toLocaleString (E : Engine) (n : number) : string :=
  match n with
  | NInt z =>
      if is_safe z
      then (if z <? 0 then "-" else "") +:+ group_thousands (decimal (Z.abs z))
      else toLocaleString_other E n
  | NNegZero => "-0"
  | NNaN => "NaN"
  | _ => toLocaleString_other E n
  end.

(** ToBoolean, as [if (data)] applies it. *)
Class ToBoolean (T : Type) := toBoolean : T -> bool.

#[export] Instance number_ToBoolean : ToBoolean number := fun n =>
  match n with
  | NInt z => negb (z =? 0)
  | NNegZero => false
  | NNaN => false
  | _ => true
  end.

(** *** JSON.stringify *)

Definition double_quote : ascii := ascii_of_nat 34.
Definition backslash : ascii := ascii_of_nat 92.
Definition line_feed : string := String (ascii_of_nat 10) "".

Definition hex_digit (n : N) : ascii :=
  ascii_of_N (if (n <? 10)%N then 48 + n else 87 + n)%N.

(** One character inside a JSON string. *)
Definition escape_char (c : ascii) : string :=
  let n := N_of_ascii c in
  if (n =? 34)%N then String backslash (String double_quote "")
  else if (n =? 92)%N then String backslash (String backslash "")
  else if (n =? 8)%N then String backslash "b"
  else if (n =? 9)%N then String backslash "t"
  else if (n =? 10)%N then String backslash "n"
  else if (n =? 12)%N then String backslash "f"
  else if (n =? 13)%N then String backslash "r"
  else if (n <? 32)%N
       then String backslash
              ("u00" +:+ String (hex_digit (n / 16)) (String (hex_digit (n mod 16)) ""))
  else String c "".

Fixpoint escape (text : string) : string :=
  match text with
  | EmptyString => EmptyString
  | String c rest => escape_char c +:+ escape rest
  end.

(** [JSON.stringify(text)] for a string *)
Definition JSON_quote (text : string) : string :=
  String double_quote (escape text +:+ String double_quote "").

(** [JSON.stringify(n)] for a number *)
Definition JSON_number (E : Engine) (n : number) : string :=
  match n with
  | NNaN | NInf _ => "null"
  | _ => Number_toString E n
  end.

(** An array or an object around its [parts]: on one line when [gap] is
    empty, else each part on a line of its own, indented by [gap] more than
    the closing bracket. *)
Definition wrap (opening closing gap indent : string) (parts : list string) : string :=
  match parts with
  | [] => opening +:+ closing
  | _ :: _ =>
      if String.eqb gap ""
      then opening +:+ String.concat "," parts +:+ closing
      else opening +:+ line_feed +:+ indent +:+ gap
             +:+ String.concat ("," +:+ line_feed +:+ indent +:+ gap) parts
             +:+ line_feed +:+ indent +:+ closing
  end.

(** [JSON.stringify(v, null, gap)], for the value that stands at
    indentation [indent]. *)
Fixpoint stringify (E : Engine) (gap indent : string) (v : json) : string :=
  match v with
  | JNull => "null"
  | JBool b => if b then "true" else "false"
  | JNum n => JSON_number E n
  | JStr s => JSON_quote s
  | JArr items =>
      wrap "[" "]" gap indent (List.map (stringify E gap (indent +:+ gap)) items)
  | JObj fields =>
      wrap "{" "}" gap indent
        (List.map
           (fun kv =>
              match kv with
              | (k, x) =>
                  JSON_quote k +:+ (if String.eqb gap "" then ":" else ": ")
                    +:+ stringify E gap (indent +:+ gap) x
              end)
           fields)
  end.

(** [JSON.stringify(v)] *)
Definition JSON_stringify (E : Engine) (v : json) : string := stringify E "" "" v.

(** *** What is thrown *)

(** A call returns or throws; a promise awaited resolves or rejects. *)
Inductive Result (X A : Type) :=
| Returns (a : A)
| Throws (e : X).
Arguments Returns {X A} a.
Arguments Throws {X A} e.

(** A thrown value, or the reason of a rejected promise, by what the
    program does with one.  Anything can be thrown, so each conversion to a
    string gives a text or throws in its turn: a symbol has a [String(v)]
    and throws a TypeError in a template literal; an object without
    prototype throws a TypeError in both; a [toString] or a getter of the
    value's own may throw anything.  Where the program tests the value
    before it converts it, a test that throws stands as the conversion that
    throws. *)
Inductive Thrown := {
  instanceofError : bool;               (* error instanceof Error *)
  message : Result Thrown string;       (* `${error.message}` *)
  String_of : Result Thrown string;     (* String(error) *)
  template_of : Result Thrown string;   (* `${error}` *)
  response : option Response;           (* axios.isAxiosError(error) && error.response *)
}
with Response := {
  status_text : Result Thrown string;   (* `${error.response.status}` *)
  data : Result Thrown json;            (* error.response.data, as JSON.stringify
                                           reads it *)
}.

(** What code of the caller's returns or throws. *)
Definition Outcome : Type -> Type := Result Thrown.

(** [error.toString()] of an error named [name] *)
Definition error_text (name msg : string) : string :=
  if String.eqb msg "" then name else name +:+ ": " +:+ msg.

(** An error of the engine or of a library: an instance of [Error] with the
    name and the message it was built with. *)
Definition error_named (name msg : string) (answer : option Response) : Thrown :=
  {| instanceofError := true;
     message := Returns msg;
     String_of := Returns (error_text name msg);
     template_of := Returns (error_text name msg);
     response := answer |}.

(** [new Error(msg)] *)
Definition Error (msg : string) : Thrown := error_named "Error" msg None.

(** [new TypeError(msg)] *)
Definition TypeError (msg : string) : Thrown := error_named "TypeError" msg None.

(** The reason axios rejects a request with: an error of its own making,
    an [AxiosError] as a rule, with the response when the server gave one. *)
Record Rejection := {
  rejection_name : string;                     (* error.name *)
  rejection_message : string;                  (* error.message *)
  rejection_response : option (Z * json);      (* error.response: status and data *)
}.

(** The response of a server: its status, an integer of three digits, and
    its data. *)
Definition answered (answer : Z * json) : Response :=
  {| status_text := Returns (decimal answer.1); data := Returns answer.2 |}.

Definition thrown_of (e : Rejection) : Thrown :=
  error_named (rejection_name e) (rejection_message e)
    (answered <$> rejection_response e).

(** [`${error}`] for such a reason *)
Definition rejection_text (e : Rejection) : string :=
  error_text (rejection_name e) (rejection_message e).

(** A [Date]: its fields in local time, which [format] reads, and its
    [toISOString()]. *)
Record Date := {
  year : Z; month : Z; day : Z; hours : Z; minutes : Z; seconds : Z;
  toISOString : string;
}.

Fixpoint zeros (n : nat) : string :=
  match n with
  | O => ""
  | S n' => "0" +:+ zeros n'
  end.

(** date-fns [addLeadingZeros] *)
Definition addLeadingZeros (n : Z) (targetLength : nat) : string :=
  let output := decimal (Z.abs n) in
  (if n <? 0 then "-" else "")
    +:+ zeros (targetLength - String.length output) +:+ output.

(** [format(d, 'yyyy-MM-dd HH:mm:ss')] *)
Definition format (d : Date) : string :=
  addLeadingZeros (year d) 4 +:+ "-" +:+ addLeadingZeros (month d) 2 +:+ "-"
    +:+ addLeadingZeros (day d) 2 +:+ " " +:+ addLeadingZeros (hours d) 2 +:+ ":"
    +:+ addLeadingZeros (minutes d) 2 +:+ ":" +:+ addLeadingZeros (seconds d) 2.

End Js.

(** ** zod: what a schema reports *)

Module Zod.
Import Js.

(** One element of [issue.path]: the key of an object, or the index of an
    item of an array. *)
Inductive PathKey :=
| Key (name : string)
| Index (i : N).

(** The element as JSON shows it. *)
Definition key_json (k : PathKey) : json :=
  match k with
  | Key name => JStr name
  | Index i => JNum (NInt (Z.of_N i))
  end.

(** [String(k)], as [Array.prototype.join] applies it; the length of an
    array is below 2^32, so its indices print exactly. *)
Definition key_text (k : PathKey) : string :=
  match k with
  | Key name => name
  | Index i => decimal (Z.of_N i)
  end.

(** One issue of a failed parse.  The program reads [issue.path] and
    [issue.message]; zod renders the whole object of the issue, whose other
    keys ([code], [expected], ...) stand before, between and after these
    two. *)
Record ZodIssue := {
  path : list PathKey;
  message : string;
  message_first : bool;                 (* whether [message] precedes [path] *)
  keys_before : list (string * json);
  keys_between : list (string * json);
  keys_after : list (string * json);
}.

(** An issue zod makes from a check that gives no message of its own:
    [{ ...issueData, path, message }]. *)
Definition issue_of (issueData : list (string * json)) (at_path : list PathKey)
    (msg : string) : ZodIssue :=
  {| path := at_path; message := msg; message_first := false;
     keys_before := issueData; keys_between := []; keys_after := [] |}.

(** An issue zod makes from a check that carries a [message] key, which keeps
    its place: [{ ...issueData, message, path }]. *)
Definition check_issue (issueData : list (string * json)) (msg : string)
    (at_path : list PathKey) : ZodIssue :=
  {| path := at_path; message := msg; message_first := true;
     keys_before := issueData; keys_between := []; keys_after := [] |}.

(** The object of an issue. *)
Definition issue_object (issue : ZodIssue) : json :=
  let path_key := ("path", JArr (key_json <$> path issue)) in
  let message_key := ("message", JStr (message issue)) in
  JObj (keys_before issue
          ++ (if message_first issue then message_key else path_key)
          :: keys_between issue
          ++ (if message_first issue then path_key else message_key)
          :: keys_after issue).

Record ZodError := { issues : list ZodIssue }.

(** [error.message] of a [ZodError]:
    [JSON.stringify(this.issues, util.jsonStringifyReplacer, 2)]. *)
Definition ZodError_message (E : Engine) (error : ZodError) : string :=
  stringify E "  " "" (JArr (issue_object <$> issues error)).

(** The value of [schema.safeParse(input)]. *)
Inductive SafeParseReturn (T : Type) :=
| Success (data : T)
| Failure (error : ZodError).
Arguments Success {T} data.
Arguments Failure {T} error.

End Zod.

(** ** Effects *)

Module Eff.
Import Js.

(** What one run of the program does to the outside, in order. *)
Inductive Event :=
| ConsoleLog (text : string)             (* console.log; an object argument is not rendered *)
| ConsoleError (text : string)           (* console.error *)
| AxiosGet (url : string)                (* axios.get(url) *)
| AxiosPost (url : string) (body : json) (* axios.post(url, body) *)
| RunPolling                             (* this.runPolling() called and not awaited *)
| ProcessOn (signal : string).           (* process.on(signal, handler) *)

(** What the outside answers.  An HTTP answer may depend on everything that
    happened before it; a request that fails is rejected by axios with an
    error of its own. *)
Record World := {
  axios_get_result : list Event -> string -> Result Rejection json;
                                         (* response.data, or the rejection *)
  axios_post_result : list Event -> string -> json -> Result Rejection unit;
  clock : nat -> Date;                                        (* the n-th [new Date()] *)
  process_env : gmap string string;
}.

(** A task registered with node-cron.  The service only ever builds the
    pattern [*/N * * * *]; [step] is its [N]. *)
Record ScheduledTask := { step : Z; running : bool }.

Record State := {
  trace : list Event;
  clock_reads : nat;
  tasks : list ScheduledTask;   (* node-cron's registered tasks; a handle is an index *)
  cronJob : option nat;         (* this.cronJob *)
}.

(** How a computation ends: normally, by an exception, or by [process.exit]. *)
Inductive Completion (A : Type) :=
| Normal (a : A)
| Throw (e : Thrown)
| Exit (code : Z).
Arguments Normal {A} a.
Arguments Throw {A} e.
Arguments Exit {A} code.

Definition M (A : Type) : Type := State -> Completion A * State.

Definition ret {A} (a : A) : M A := fun s => (Normal a, s).

Definition bind {A B} (m : M A) (k : A -> M B) : M B := fun s =>
  match m s with
  | (Normal a, s') => k a s'
  | (Throw e, s') => (Throw e, s')
  | (Exit c, s') => (Exit c, s')
  end.

Definition throw {A} (e : Thrown) : M A := fun s => (Throw e, s).

Definition process_exit {A} (code : Z) : M A := fun s => (Exit code, s).

(** [try { body } catch (error) { handler }] *)
Definition try_catch {A} (body : M A) (handler : Thrown -> M A) : M A := fun s =>
  match body s with
  | (Throw e, s') => handler e s'
  | r => r
  end.

(** A synchronous call that may throw. *)
Definition lift {A} (o : Outcome A) : M A :=
  match o with
  | Returns a => ret a
  | Throws e => throw e
  end.

(** An awaited request of axios. *)
Definition await {A} (r : Result Rejection A) : M A :=
  match r with
  | Returns a => ret a
  | Throws e => throw (thrown_of e)
  end.

Declare Scope eff_scope.
Delimit Scope eff_scope with eff.
Bind Scope eff_scope with M.
Notation "x <- c1 ;; c2" := (bind c1 (fun x => c2))
  (at level 100, c1 at next level, right associativity) : eff_scope.
Notation "c1 ;; c2" := (bind c1 (fun _ => c2))
  (at level 100, right associativity) : eff_scope.

(** The state once [events] have happened. *)
Definition record (events : list Event) (s : State) : State :=
  {| trace := trace s ++ events; clock_reads := clock_reads s;
     tasks := tasks s; cronJob := cronJob s |}.

(** The state once the clock has been read. *)
Definition clock_read (s : State) : State :=
  {| trace := trace s; clock_reads := S (clock_reads s);
     tasks := tasks s; cronJob := cronJob s |}.

Arguments record : simpl never.
Arguments clock_read : simpl never.

Definition emit (e : Event) : M unit := fun s => (Normal tt, record [e] s).

Definition console_log (text : string) : M unit := emit (ConsoleLog text).
Definition console_error (text : string) : M unit := emit (ConsoleError text).

Section InWorld.
Context (W : World).

(** [new Date()] *)
Definition new_Date : M Date := fun s =>
  (Normal (clock W (clock_reads s)), clock_read s).

(** [await axios.get(url)], giving [response.data] *)
Definition axios_get (url : string) : M json := fun s =>
  (emit (AxiosGet url) ;; await (axios_get_result W (trace s) url))%eff s.

(** [await axios.post(url, body)] *)
Definition axios_post (url : string) (body : json) : M unit := fun s =>
  (emit (AxiosPost url body) ;; await (axios_post_result W (trace s) url body))%eff s.

End InWorld.

(** The requests made to the webhook, oldest first. *)
Definition posts (tr : list Event) : list (string * json) :=
  omap (fun e => match e with AxiosPost u b => Some (u, b) | _ => None end) tr.

End Eff.

(** ** node-cron, as far as the service uses it *)

Module Cron.
Import Js Eff.

Fixpoint until_space (s : string) : string * string :=
  match s with
  | EmptyString => (EmptyString, EmptyString)
  | String c rest =>
      if Ascii.eqb c " "%char then (EmptyString, s)
      else let (word, tail) := until_space rest in (String c word, tail)
  end.

(** Reads the pattern [*/N * * * *] when [N] is a run of digits and not
    zero. *)
Definition parse_every (expression : string) : option Z :=
  match expression with
  | String "*" (String "/" rest) =>
      let (word, tail) := until_space rest in
      if String.eqb tail " * * * *" then
        match word with
        | EmptyString => None
        | _ => match digits_value 0 word with
               | Some n => if 0 <? n then Some n else None
               | None => None
               end
        end
      else None
  | _ => None
  end.

(** The step node-cron schedules for a pattern, or [None] when it refuses
    the pattern: a step that is a run of digits and not zero is read as it
    stands; what node-cron makes of any other pattern is the engine's. *)
Definition read_pattern (E : Engine) (expression : string) : option Z :=
  match parse_every expression with
  | Some n => Some n
  | None => cron_other E expression
  end.

(** [cron.schedule(expression, callback)]: validates the pattern, registers
    the task, starts it and returns it.  Every callback of this program is
    [() => { this.runPolling(); }], so a task does not carry it. *)
Definition schedule (E : Engine) (expression : string) : M nat := fun s =>
  match read_pattern E expression with
  | Some n =>
      (Normal (length (tasks s)),
       {| trace := trace s; clock_reads := clock_reads s;
          tasks := tasks s ++ [{| step := n; running := true |}];
          cronJob := cronJob s |})
  | None => (Throw (Error (expression +:+ " is a invalid expression for minute")), s)
  end.

Definition stopped (task : ScheduledTask) : ScheduledTask :=
  {| step := step task; running := false |}.

(** [task.stop()] *)
Definition task_stop (job : nat) : M unit := fun s =>
  (Normal tt,
   {| trace := trace s; clock_reads := clock_reads s;
      tasks := alter stopped job (tasks s);
      cronJob := cronJob s |}).

(** node-cron reads the minute field [*/N] as a crontab does: the asterisk
    is the range 0..59, the step keeps the minutes of that range that are
    multiples of [N].  [t] counts the minutes from the start of some hour. *)
Definition fires (task : ScheduledTask) (t : Z) : bool :=
  running task && ((t mod 60) mod step task =? 0).

(** What the scheduler does at minute [t]: the callback of every task that
    fires then. *)
Fixpoint run_callbacks (ts : list ScheduledTask) (t : Z) : M unit :=
  match ts with
  | [] => ret tt
  | task :: rest =>
      ((if fires task t then emit RunPolling else ret tt) ;; run_callbacks rest t)%eff
  end.

Definition tick (t : Z) : M unit := fun s => run_callbacks (tasks s) t s.

End Cron.

(** ** services/polling.service.ts *)

Module PollingService.
Import Js Eff.

Record PollingConfig := {
  url : string;
  interval : number; (* minutes *)
  webhookUrl : string;
}.

Section Service.
Context (E : Engine) (W : World).
Context {T : Type} `{ToBoolean T}.
(** The three constructor arguments.  [schema] is [this.schema.safeParse]; a
    refinement of the caller's may throw inside it.  [templateFn] is the
    caller's and may do anything. *)
Context (schema : json -> Outcome (Zod.SafeParseReturn T)).
Context (templateFn : T -> string -> M json).
Context (config : PollingConfig).

Definition error_embed (errorMessage timestamp : string) : json :=
  JObj [("title", JStr "❌ Polling Error");
        ("color", JNum (NInt 16711680)); (* 0xFF0000, red *)
        ("description", JStr errorMessage);
        ("footer", JObj [("text", JStr ("Polling • " +:+ timestamp))])].

Definition sendErrorToDiscord (errorMessage : string) : M unit :=
  try_catch
    (now <- new_Date W ;;
     let timestamp := format now in
     let embed := error_embed errorMessage timestamp in
     axios_post W (webhookUrl config) (JObj [("embeds", JArr [embed])]) ;;
     console_log "Error sent to Discord successfully")%eff
    (fun error =>
       text <- lift (template_of error) ;;
       console_error ("Error sending error to Discord: " +:+ text))%eff.

Definition sendToDiscord (data : T) : M unit :=
  try_catch
    (now <- new_Date W ;;
     let timestamp := format now in
     payload <- templateFn data timestamp ;;
     axios_post W (webhookUrl config) payload ;;
     console_log "Data sent to Discord successfully")%eff
    (fun error =>
       text <- lift (template_of error) ;;
       console_error ("Error sending to Discord: " +:+ text))%eff.

(** [Promise<T | null>]: [None] is [null].  When [T] itself admits [null],
    [Some] of that value and [None] are one JavaScript value; [runPolling]
    treats them alike, [null] being falsy. *)
Definition fetchData : M (option T) :=
  try_catch
    (console_log ("Fetching data from: " +:+ url config) ;;
     response_data <- axios_get W (url config) ;;
     validationResult <- lift (schema response_data) ;;
     match validationResult with
     | Zod.Failure error =>
         console_error "Schema validation failed:" ;;
         sendErrorToDiscord
           ("Schema validation failed: " +:+ Zod.ZodError_message E error) ;;
         ret None
     | Zod.Success data => ret (Some data)
     end)%eff
    (fun error =>
       (errorMessage <- lift (if instanceofError error then message error
                               else String_of error) ;;
        console_error ("Error fetching data: " +:+ errorMessage) ;;
        match response error with
        | Some answer =>
            status <- lift (status_text answer) ;;
            console_error ("Status: " +:+ status) ;;
            value <- lift (data answer) ;;
            console_error ("Data: " +:+ JSON_stringify E value)
        | None => ret tt
        end ;;
        sendErrorToDiscord ("Error fetching data: " +:+ errorMessage) ;;
        ret None)%eff).

Definition runPolling : M unit :=
  (now <- new_Date W ;;
   console_log ("Polling running at " +:+ toISOString now) ;;
   data <- fetchData ;;
   match data with
   | Some v =>
       if toBoolean v
       then console_log "Data received:" ;; sendToDiscord v
       else console_error "Failed to fetch valid data"
   | None => console_error "Failed to fetch valid data"
   end)%eff.

Definition set_cronJob (job : nat) : M unit := fun s =>
  (Normal tt,
   {| trace := trace s; clock_reads := clock_reads s;
      tasks := tasks s; cronJob := Some job |}).

Definition start : M unit :=
  (emit RunPolling ;;
   let cronExpression := "*/" +:+ Number_toString E (interval config) +:+ " * * * *" in
   job <- Cron.schedule E cronExpression ;;
   set_cronJob job ;;
   console_log ("Polling started! Monitoring every "
                +:+ Number_toString E (interval config) +:+ " minutes..."))%eff.

Definition stop : M unit := fun s =>
  match cronJob s with
  | Some job => (Cron.task_stop job ;; console_log "Polling stopped")%eff s
  | None => ret tt s
  end.

End Service.
End PollingService.

(** ** zod: the schemas the program builds *)

Module Schema.
Import Js.
Import Zod.

(** Parsing one value: the value, or the issues found in it. *)
Inductive ParseReturn (A : Type) :=
| OK (value : A)
| INVALID (found : list ZodIssue).
Arguments OK {A} value.
Arguments INVALID {A} found.

(** zod's name for the type of an input, as its messages print it. *)
Definition parsed_type (v : option json) : string :=
  match v with
  | None => "undefined"
  | Some JNull => "null"
  | Some (JBool _) => "boolean"
  | Some (JNum NNaN) => "nan"
  | Some (JNum _) => "number"
  | Some (JStr _) => "string"
  | Some (JArr _) => "array"
  | Some (JObj _) => "object"
  end.

(** The issue of an input of the wrong type:
    [{ code: "invalid_type", expected, received }]. *)
Definition wrong_type (at_path : list PathKey) (expected received msg : string)
  : ZodIssue :=
  issue_of [("code", JStr "invalid_type"); ("expected", JStr expected);
            ("received", JStr received)]
    at_path msg.

Definition invalid_type (at_path : list PathKey) (expected : string) (v : option json)
  : ZodIssue :=
  wrong_type at_path expected (parsed_type v)
    match v with
    | None => "Required"
    | Some _ => "Expected " +:+ expected +:+ ", received " +:+ parsed_type v
    end.

(** [{ validation: "url", code: "invalid_string", message }] *)
Definition invalid_url (at_path : list PathKey) : ZodIssue :=
  check_issue [("validation", JStr "url"); ("code", JStr "invalid_string")]
    "Invalid url" at_path.

(** What is left of an input that [Number] turned into NaN. *)
Definition received_nan (at_path : list PathKey) : ZodIssue :=
  wrong_type at_path "number" "nan" "Expected number, received nan".

(** [{ code: "invalid_type", expected: "integer", received: "float", message }] *)
Definition not_integer (at_path : list PathKey) : ZodIssue :=
  check_issue [("code", JStr "invalid_type"); ("expected", JStr "integer");
               ("received", JStr "float")]
    "Expected integer, received float" at_path.

(** [{ code: "too_small", minimum: 0, type: "number", inclusive: false,
       exact: false, message }] *)
Definition not_positive (at_path : list PathKey) : ZodIssue :=
  check_issue [("code", JStr "too_small"); ("minimum", JNum (NInt 0));
               ("type", JStr "number"); ("inclusive", JBool false);
               ("exact", JBool false)]
    "Number must be greater than 0" at_path.

(** [z.string()] *)
Definition z_string (at_path : list PathKey) (v : option json) : ParseReturn string :=
  match v with
  | Some (JStr s) => OK s
  | _ => INVALID [invalid_type at_path "string" v]
  end.

(** [z.string().url()] *)
Definition z_string_url (E : Engine) (at_path : list PathKey) (v : option json)
  : ParseReturn string :=
  match z_string at_path v with
  | OK s =>
      if is_url E s then OK s
      else INVALID [invalid_url at_path]
  | INVALID found => INVALID found
  end.

(** [z.coerce.number()]: the input goes through [Number] first.  This is the
    verdict where [Number] returns; where it throws, so does the parse. *)
Definition z_coerce_number (E : Engine) (at_path : list PathKey) (v : option json)
  : ParseReturn number :=
  match Number E v with
  | NNaN => INVALID [received_nan at_path]
  | n => OK n
  end.

(** [Number.isInteger(n)] *)
Definition isInteger (n : number) : bool :=
  match n with
  | NInt _ | NNegZero => true
  | _ => false
  end.

(** [n <= 0] *)
Definition le_zero (n : number) : bool :=
  match n with
  | NInt z => z <=? 0
  | NNegZero => true
  | NFrac neg => neg
  | NInf neg => neg
  | NNaN => false
  end.

(** [z.coerce.number().int().positive()]: both checks run, each adds its
    issue. *)
Definition z_coerce_number_int_positive (E : Engine) (at_path : list PathKey)
    (v : option json) : ParseReturn number :=
  match z_coerce_number E at_path v with
  | OK n =>
      let found :=
        (if isInteger n then [] else [not_integer at_path])
        ++ (if le_zero n then [not_positive at_path] else []) in
      match found with
      | [] => OK n
      | _ => INVALID found
      end
  | INVALID found => INVALID found
  end.

(** [z.number()] *)
Definition z_number (at_path : list PathKey) (v : option json) : ParseReturn number :=
  match v with
  | Some (JNum NNaN) => INVALID [received_nan at_path]
  | Some (JNum n) => OK n
  | _ => INVALID [invalid_type at_path "number" v]
  end.

(** [schema.safeParse(input)] for a schema that is not an object *)
Definition safeParse {A} (parse : list PathKey -> option json -> ParseReturn A)
    (input : json) : SafeParseReturn A :=
  match parse [] (Some input) with
  | OK value => Success value
  | INVALID found => Failure {| issues := found |}
  end.

Definition issues_of {A} (r : ParseReturn A) : list ZodIssue :=
  match r with
  | OK _ => []
  | INVALID found => found
  end.

End Schema.

(** ** config.ts *)

Module Config.
Import Js Eff.
Import Zod Schema.

(** [z.infer<typeof EnvSchema>] *)
Record Env := {
  POLL_URL : string;
  POLL_INTERVAL : number;
  DISCORD_WEBHOOK_URL : string;
}.

(** The object [loadEnvs] builds from [process.env]; [None] is [undefined]. *)
Record RawEnv := {
  raw_POLL_URL : option string;
  raw_POLL_INTERVAL : option string;
  raw_DISCORD_WEBHOOK_URL : option string;
}.

Section WithEngine.
Context (E : Engine).

(** [EnvSchema.safeParse(env)]: an object schema parses every key and
    gathers the issues of all of them, in the order of the keys. *)
Definition EnvSchema (env : RawEnv) : SafeParseReturn Env :=
  let poll_url := z_string_url E [Key "POLL_URL"] (JStr <$> raw_POLL_URL env) in
  let poll_interval :=
    z_coerce_number_int_positive E [Key "POLL_INTERVAL"] (JStr <$> raw_POLL_INTERVAL env) in
  let discord_webhook_url :=
    z_string_url E [Key "DISCORD_WEBHOOK_URL"] (JStr <$> raw_DISCORD_WEBHOOK_URL env) in
  match poll_url, poll_interval, discord_webhook_url with
  | OK u, OK i, OK w =>
      Success {| POLL_URL := u; POLL_INTERVAL := i; DISCORD_WEBHOOK_URL := w |}
  | _, _, _ =>
      Failure {| issues := issues_of poll_url ++ issues_of poll_interval
                             ++ issues_of discord_webhook_url |}
  end.

(** [z.infer<typeof payloadSchema>] *)
Record Payload := {
  id : string;
  daily_active_users : number;
  weekly_active_users : number;
  monthly_active_users : number;
}.

(** The verdict of [payloadSchema.safeParse(input)], where the conversion of
    the counts returns; keys the schema does not name are dropped. *)
Definition payloadSchema (input : json) : SafeParseReturn Payload :=
  match input with
  | JObj fields =>
      let r_id := z_string [Key "id"] (get_field "id" fields) in
      let r_daily :=
        z_coerce_number E [Key "daily_active_users"] (get_field "daily_active_users" fields) in
      let r_weekly :=
        z_coerce_number E [Key "weekly_active_users"] (get_field "weekly_active_users" fields) in
      let r_monthly :=
        z_coerce_number E [Key "monthly_active_users"] (get_field "monthly_active_users" fields) in
      match r_id, r_daily, r_weekly, r_monthly with
      | OK i, OK d, OK w, OK m =>
          Success {| id := i; daily_active_users := d;
                     weekly_active_users := w; monthly_active_users := m |}
      | _, _, _, _ =>
          Failure {| issues := issues_of r_id ++ issues_of r_daily
                                 ++ issues_of r_weekly ++ issues_of r_monthly |}
      end
  | _ => Failure {| issues := [invalid_type [] "object" (Some input)] |}
  end.

(** Whether [payloadSchema.safeParse(input)] throws: an object schema parses
    every one of its keys, whatever the others gave, and [z.coerce.number()]
    lets what [Number] throws through. *)
Definition payloadSchema_throws (input : json) : bool :=
  match input with
  | JObj fields =>
      Number_throws (get_field "daily_active_users" fields)
      || Number_throws (get_field "weekly_active_users" fields)
      || Number_throws (get_field "monthly_active_users" fields)
  | _ => false
  end.

(** [payloadSchema.safeParse(input)] *)
Definition safeParse_payload (input : json) : Outcome (SafeParseReturn Payload) :=
  if payloadSchema_throws input
  then Throws (TypeError "Cannot convert object to primitive value")
  else Returns (payloadSchema input).

End WithEngine.

(** [path.join('.')] *)
Fixpoint join_dot (parts : list string) : string :=
  match parts with
  | [] => ""
  | [p] => p
  | p :: rest => p +:+ "." +:+ join_dot rest
  end.

(** The line [loadEnvs] prints for one issue. *)
Definition diagnostic (issue : ZodIssue) : string :=
  "- " +:+ join_dot (key_text <$> path issue) +:+ ": " +:+ Zod.message issue.

(** [issues.forEach(issue => console.error(...))] *)
Fixpoint report_issues (found : list ZodIssue) : M unit :=
  match found with
  | [] => ret tt
  | issue :: rest => (console_error (diagnostic issue) ;; report_issues rest)%eff
  end.

Section WithWorld.
Context (E : Engine) (W : World).

Definition read_env : RawEnv :=
  {| raw_POLL_URL := process_env W !! "POLL_URL";
     raw_POLL_INTERVAL := process_env W !! "POLL_INTERVAL";
     raw_DISCORD_WEBHOOK_URL := process_env W !! "DISCORD_WEBHOOK_URL" |}.

Definition loadEnvs : M Env :=
  try_catch
    (let env := read_env in
     let result := EnvSchema E env in
     match result with
     | Failure error =>
         console_error "Invalid environment configuration:" ;;
         report_issues (issues error) ;;
         throw (Error "Invalid environment configuration")
     | Success data => ret data
     end)%eff
    (fun error => throw error).

End WithWorld.

(** A URL setting is in order when it is set to a URL. *)
Definition url_ok (E : Engine) (v : option string) : bool :=
  match v with
  | Some text => is_url E text
  | None => false
  end.

(** The interval is in order when it is set to a positive integer. *)
Definition interval_ok (E : Engine) (v : option string) : bool :=
  match v with
  | Some text =>
      match Number_string E text with
      | NInt z => 0 <? z
      | _ => false
      end
  | None => false
  end.

(** The required settings that are missing or invalid. *)
Definition invalid_fields (E : Engine) (env : RawEnv) : list string :=
  (if url_ok E (raw_POLL_URL env) then [] else ["POLL_URL"])
  ++ (if interval_ok E (raw_POLL_INTERVAL env) then [] else ["POLL_INTERVAL"])
  ++ (if url_ok E (raw_DISCORD_WEBHOOK_URL env) then [] else ["DISCORD_WEBHOOK_URL"]).

(** What [main] prints when it gives up. *)
Definition startup_help : list string :=
  ["Failed to start polling service:";
   "Make sure you have properly configured the environment variables:";
   "- POLL_URL: The URL to poll data from";
   "- POLL_INTERVAL: How often to poll in minutes";
   "- DISCORD_WEBHOOK_URL: Discord webhook URL to send notifications"].

(** A parsed payload is an object, and an object is truthy. *)
#[export] Instance Payload_ToBoolean : ToBoolean Payload := fun _ => true.

End Config.

(** ** index.ts *)

Module Index.
Import Js Eff Config.

Section Program.
Context (E : Engine) (W : World).

Definition formatNumber (num : number) : string := toLocaleString E num.

Definition metric_field (name : string) (num : number) : json :=
  JObj [("name", JStr name);
        ("value", JStr ("**" +:+ formatNumber num +:+ "**"));
        ("inline", JBool true)].

Definition createDiscordMessage (data : Payload) (timestamp : string) : M json :=
  (let thumbnail := process_env W !! "THUMBNAIL" in
   now <- new_Date W ;;
   ret (JObj [("embeds", JArr [JObj (
     [("title", JStr "📊 Active User Metrics");
      ("color", JNum (NInt 3447003)); (* 0x3498DB *)
      ("fields", JArr [
         metric_field "Daily Active Users" (daily_active_users data);
         metric_field "Weekly Active Users" (weekly_active_users data);
         metric_field "Monthly Active Users" (monthly_active_users data)])]
     ++ match thumbnail with
        | Some t => if String.eqb t "" then []
                    else [("thumbnail", JObj [("url", JStr t)])]
        | None => []
        end
     ++ [("footer", JObj [("text", JStr ("📡 Metrics updated • " +:+ timestamp))]);
         ("timestamp", JStr (toISOString now))])])]))%eff.

Definition pollingService_config (config : Env) : PollingService.PollingConfig :=
  {| PollingService.url := POLL_URL config;
     PollingService.interval := POLL_INTERVAL config;
     PollingService.webhookUrl := DISCORD_WEBHOOK_URL config |}.

Definition main : M unit :=
  try_catch
    (config <- loadEnvs E W ;;
     PollingService.start E (pollingService_config config) ;;
     emit (ProcessOn "SIGINT") ;;
     emit (ProcessOn "SIGTERM"))%eff
    (fun error =>
       console_error "Failed to start polling service:" ;;
       console_error "Make sure you have properly configured the environment variables:" ;;
       console_error "- POLL_URL: The URL to poll data from" ;;
       console_error "- POLL_INTERVAL: How often to poll in minutes" ;;
       console_error "- DISCORD_WEBHOOK_URL: Discord webhook URL to send notifications" ;;
       process_exit 1)%eff.

(** One cycle of the service [main] builds. *)
Definition runPolling (config : PollingService.PollingConfig) : M unit :=
  PollingService.runPolling E W (safeParse_payload E) createDiscordMessage config.

End Program.
End Index.

(** ** What one cycle meets, and what it leaves *)

Module Cycle.
Import Js Eff PollingService.

(** How the fetch of one cycle goes: the source answers and the schema
    accepts the answer, the schema reports issues, or something throws (the
    request is rejected, or the schema throws while parsing). *)
Inductive FetchOutcome (T : Type) :=
| Valid (data : T)
| Invalid (error : Zod.ZodError)
| Failed (e : Thrown).
Arguments Valid {T} data.
Arguments Invalid {T} error.
Arguments Failed {T} e.

(** The three cases a caller of the fetch would have to tell apart. *)
Inductive Tag := IsValue | IsFetchError | IsValidationError.

Definition tag_of {T} (o : FetchOutcome T) : Tag :=
  match o with
  | Valid _ => IsValue
  | Invalid _ => IsValidationError
  | Failed _ => IsFetchError
  end.

(** What the [catch] of [fetchData] makes of the value it caught:
    [error instanceof Error ? error.message : String(error)], in the
    template literals it then stands in. *)
Definition caught_text (e : Thrown) : Outcome string :=
  if instanceofError e then message e else String_of e.

(** [errorMessage] in the [catch] of [fetchData], where computing it
    returns. *)
Definition errorMessage_of (e : Thrown) : option string :=
  match caught_text e with
  | Returns text => Some text
  | Throws _ => None
  end.

(** What the [catch] of [fetchData] throws itself while it renders the
    value it caught: what computing [errorMessage] throws or, after the
    first line is logged, what rendering the status or the data of the
    response throws. *)
Definition caught_throws (e : Thrown) : option Thrown :=
  match caught_text e with
  | Throws thrown => Some thrown
  | Returns _ =>
      match response e with
      | Some answer =>
          match status_text answer with
          | Throws thrown => Some thrown
          | Returns _ =>
              match data answer with
              | Throws thrown => Some thrown
              | Returns _ => None
              end
          end
      | None => None
      end
  end.

(** What that [catch] logs before it reports the failure, or before it
    throws. *)
Definition caught_log (E : Engine) (e : Thrown) : list Event :=
  match caught_text e with
  | Throws _ => []
  | Returns errorMessage =>
      ConsoleError ("Error fetching data: " +:+ errorMessage)
      :: match response e with
         | Some answer =>
             match status_text answer with
             | Throws _ => []
             | Returns status =>
                 ConsoleError ("Status: " +:+ status)
                 :: match data answer with
                    | Throws _ => []
                    | Returns value =>
                        [ConsoleError ("Data: " +:+ JSON_stringify E value)]
                    end
             end
         | None => []
         end
  end.

(** What [fetchData] throws, if it throws: what its [catch] throws. *)
Definition escapes {T} (o : FetchOutcome T) : option Thrown :=
  match o with
  | Failed e => caught_throws e
  | _ => None
  end.

Section Observed.
Context (E : Engine) (W : World).
Context {T : Type}.
Context (schema : json -> Outcome (Zod.SafeParseReturn T)).
Context (config : PollingConfig).

(** The state in which [fetchData], called in state [s], has sent its
    request. *)
Definition requested (s : State) : State :=
  record [ConsoleLog ("Fetching data from: " +:+ url config); AxiosGet (url config)] s.

(** The outcome met by [fetchData] when it is called in state [s]. *)
Definition fetch_outcome (s : State) : FetchOutcome T :=
  match axios_get_result W
          (trace s ++ [ConsoleLog ("Fetching data from: " +:+ url config)])
          (url config) with
  | Throws e => Failed (thrown_of e)
  | Returns response_data =>
      match schema response_data with
      | Throws e => Failed e
      | Returns (Zod.Failure error) => Invalid error
      | Returns (Zod.Success data) => Valid data
      end
  end.

(** The state in which [runPolling], called in state [s], calls [fetchData]. *)
Definition polling_started (s : State) : State :=
  record [ConsoleLog ("Polling running at " +:+ toISOString (clock W (clock_reads s)))]
    (clock_read s).

(** The outcome met by the cycle [runPolling] started in state [s]. *)
Definition cycle_outcome (s : State) : FetchOutcome T :=
  fetch_outcome (polling_started s).

(** The body of an error notification built in state [s], where the clock
    is read for its footer. *)
Definition error_body (errorMessage : string) (s : State) : json :=
  JObj [("embeds",
         JArr [error_embed errorMessage (format (clock W (clock_reads s)))])].

(** The state once an error notification has been sent from state [s]. *)
Definition error_reported (errorMessage : string) (s : State) : State :=
  record
    [AxiosPost (webhookUrl config) (error_body errorMessage s);
     match axios_post_result W (trace s) (webhookUrl config)
             (error_body errorMessage s) with
     | Returns _ => ConsoleLog "Error sent to Discord successfully"
     | Throws e => ConsoleError ("Error sending error to Discord: " +:+ rejection_text e)
     end]
    (clock_read s).

(** The message of the error notification, by what went wrong; there is
    none when the [catch] throws before it reports. *)
Definition failure_text (o : FetchOutcome T) : option string :=
  match o with
  | Valid _ => None
  | Invalid error =>
      Some ("Schema validation failed: " +:+ Zod.ZodError_message E error)
  | Failed e =>
      match caught_throws e with
      | Some _ => None
      | None => String.append "Error fetching data: " <$> errorMessage_of e
      end
  end.

(** What [fetchData] logs after its request. *)
Definition failure_log (o : FetchOutcome T) : list Event :=
  match o with
  | Valid _ => []
  | Invalid _ => [ConsoleError "Schema validation failed:"]
  | Failed e => caught_log E e
  end.

(** The state in which [fetchData], called in state [s], ends: it has
    logged the failure, if there is one, and reported it, unless its
    [catch] threw. *)
Definition fetched (s : State) : State :=
  match fetch_outcome s with
  | Valid _ => requested s
  | o =>
      let logged := record (failure_log o) (requested s) in
      match failure_text o with
      | Some text => error_reported text logged
      | None => logged
      end
  end.

(** The value [fetchData], called in state [s], returns, when it does. *)
Definition fetched_value (s : State) : option T :=
  match fetch_outcome s with
  | Valid data => Some data
  | _ => None
  end.

End Observed.

(** The caller of the fetch can tell the three cases apart: some reading of
    what the fetch completes with gives the case, in every world and state. *)
Definition returns_tagged_result {T : Type}
    (fetch : World -> State -> Completion (option T) * State)
    (outcome : World -> State -> FetchOutcome T) : Prop :=
  exists tag : Completion (option T) -> Tag,
    forall W s, tag (fetch W s).1 = tag_of (outcome W s).

(** [text] occurs in [whole]. *)
Definition contains (text whole : string) : Prop :=
  exists before after, whole = before +:+ text +:+ after.

(** [body.embeds[0].fields[i].value], for every [i]. *)
Definition embed_field_values (body : json) : list json :=
  match body with
  | JObj top =>
      match get_field "embeds" top with
      | Some (JArr (JObj embed :: _)) =>
          match get_field "fields" embed with
          | Some (JArr fields) =>
              omap (fun f => match f with
                             | JObj kv => get_field "value" kv
                             | _ => None
                             end) fields
          | _ => []
          end
      | _ => []
      end
  | _ => []
  end.

End Cycle.

(** ** Concrete runs *)

Module Scenarios.
Import Js Eff PollingService Config Schema.

(** An engine that answers the inputs the model leaves to it. *)
Definition engine : Engine :=
  {| Number_other := fun _ => NNaN;
     Number_array := fun _ => NNaN;
     toString_other := fun _ => "1e+21";
     toLocaleString_other := fun _ => "0.5";
     is_url := String.prefix "http";
     cron_other := fun _ => None |}.

Definition noon : Date :=
  {| year := 2024; month := 5; day := 17; hours := 12; minutes := 0; seconds := 7;
     toISOString := "2024-05-17T10:00:07.000Z" |}.

(** A world in which the source and the webhook always answer the same. *)
Definition world (source : Result Rejection json) (webhook : Result Rejection unit)
    (env : gmap string string) : World :=
  {| axios_get_result := fun _ _ => source;
     axios_post_result := fun _ _ _ => webhook;
     clock := fun _ => noon;
     process_env := env |}.

(** The state of a process that has done nothing yet. *)
Definition boot : State :=
  {| trace := []; clock_reads := 0; tasks := []; cronJob := None |}.

Definition config (minutes : Z) : PollingConfig :=
  {| url := "https://source.example/metrics";
     interval := NInt minutes;
     webhookUrl := "https://chat.example/webhook" |}.

(** A service over plain numbers: [new PollingService(z.number(), count_message, config)]. *)
Definition count_schema (input : json) : Outcome (Zod.SafeParseReturn number) :=
  Returns (safeParse z_number input).

Definition count_message (data : number) (timestamp : string) : M json :=
  ret (JObj [("content", JNum data); ("at", JStr timestamp)]).

(** The schema of index.ts, as the service calls it. *)
Definition payload_schema (input : json) : Outcome (Zod.SafeParseReturn Payload) :=
  safeParse_payload engine input.

(** The source answers [0]. *)
Definition zero_world : World := world (Returns (JNum (NInt 0))) (Returns tt) ∅.

(** The payload of the metrics scenario. *)
Definition metrics : json :=
  JObj [("id", JStr "u1");
        ("daily_active_users", JStr "1234");
        ("weekly_active_users", JNum (NInt 5000));
        ("monthly_active_users", JNum (NInt 20000))].

Definition metrics_world : World := world (Returns metrics) (Returns tt) ∅.

(** A payload that lacks the three counts. *)
Definition incomplete_world : World :=
  world (Returns (JObj [("id", JStr "u1")])) (Returns tt) ∅.

(** The source cannot be reached. *)
Definition refused : Rejection :=
  {| rejection_name := "AxiosError";
     rejection_message := "connect ECONNREFUSED 127.0.0.1:80";
     rejection_response := None |}.

Definition unreachable_world : World := world (Throws refused) (Returns tt) ∅.

(** The webhook refuses every request. *)
Definition deaf_world : World := world (Returns metrics) (Throws refused) ∅.

(** A transform that throws. *)
Definition broken_message (data : number) (timestamp : string) : M json :=
  throw (Error "no template").

(** [Symbol("halt")], thrown.  It is no [Error] and has no [message];
    [String] gives its description, a template literal throws a
    TypeError. *)
Definition halt : Thrown :=
  {| instanceofError := false;
     message := Returns "undefined";
     String_of := Returns "Symbol(halt)";
     template_of := Throws (TypeError "Cannot convert a Symbol value to a string");
     response := None |}.

(** A transform that throws a symbol: [() => { throw Symbol("halt") }]. *)
Definition halting_message (data : number) (timestamp : string) : M json :=
  throw halt.

(** [Object.create(null)], thrown: an object with no prototype, hence with
    no [toString] and no [valueOf], which nothing converts to a string. *)
Definition bare_object : Thrown :=
  {| instanceofError := false;
     message := Returns "undefined";
     String_of := Throws (TypeError "Cannot convert object to primitive value");
     template_of := Throws (TypeError "Cannot convert object to primitive value");
     response := None |}.

(** A schema whose refinement throws such an object:
    [z.number().refine(() => { throw Object.create(null) })]. *)
Definition refusing_schema (input : json) : Outcome (Zod.SafeParseReturn number) :=
  match safeParse z_number input with
  | Zod.Success _ => Throws bare_object
  | Zod.Failure error => Returns (Zod.Failure error)
  end.

(** The source answers [7]. *)
Definition seven_world : World := world (Returns (JNum (NInt 7))) (Returns tt) ∅.

(** The environment lacks the source URL and has a negative interval. *)
Definition bad_env : gmap string string :=
  <["POLL_INTERVAL" := "-5"]> (<["DISCORD_WEBHOOK_URL" := "https://chat.example/webhook"]> ∅).

Definition misconfigured_world : World := world (Returns metrics) (Returns tt) bad_env.

End Scenarios.

(** ** What a run shows of the rest of the program *)

Module Run.
Import Js Eff PollingService Config.

(** The requests made to the source, oldest first. *)
Definition gets (tr : list Event) : list string :=
  omap (fun e => match e with AxiosGet u => Some u | _ => None end) tr.

(** [body.embeds[0][key]] *)
Definition embed_get (key : string) (body : json) : option json :=
  match body with
  | JObj top =>
      match get_field "embeds" top with
      | Some (JArr (JObj embed :: _)) => get_field key embed
      | _ => None
      end
  | _ => None
  end.

Definition not_comma (c : ascii) : bool := negb (Ascii.eqb c ","%char).

(** [text] with its commas taken out. *)
Fixpoint without_commas (text : string) : string :=
  match text with
  | EmptyString => EmptyString
  | String c rest =>
      if Ascii.eqb c ","%char then without_commas rest
      else String c (without_commas rest)
  end.

(** The keys [payloadSchema] reads. *)
Definition payload_keys : list string :=
  ["id"; "daily_active_users"; "weekly_active_users"; "monthly_active_users"].

(** The state [start] leaves when node-cron accepts the pattern of an
    interval of [n] minutes, printed as [shown]. *)
Definition started (n : Z) (shown : string) (s : State) : State :=
  {| trace := trace s
              ++ [RunPolling;
                  ConsoleLog ("Polling started! Monitoring every "
                              +:+ shown +:+ " minutes...")];
     clock_reads := clock_reads s;
     tasks := tasks s ++ [{| step := n; running := true |}];
     cronJob := Some (length (tasks s)) |}.

(** No task of the scheduler is running. *)
Definition idle (s : State) : Prop :=
  Forall (fun task => running task = false) (tasks s).

(** An engine for which every string that is not a plain decimal integer is
    a negative fraction. *)
Definition fraction_engine : Engine :=
  {| Number_other := fun _ => NFrac true;
     Number_array := fun _ => NNaN;
     toString_other := fun _ => "-1.5";
     toLocaleString_other := fun _ => "-1.5";
     is_url := String.prefix "http";
     cron_other := fun _ => None |}.

(** An environment with the three required settings. *)
Definition settings (source minutes webhook : string) : gmap string string :=
  <["POLL_URL" := source]>
    (<["POLL_INTERVAL" := minutes]> (<["DISCORD_WEBHOOK_URL" := webhook]> ∅)).

(** A world whose environment is [env], with a source that answers [7]. *)
Definition configured_world (env : gmap string string) : World :=
  Scenarios.world (Returns (JNum (NInt 7))) (Returns tt) env.

End Run.

(** * Properties *)

Import Js Eff.

Lemma record_record (a b : list Event) (s : State) :
  record b (record a s) = record (a ++ b) s.
Proof. unfold record; simpl. by rewrite <- app_assoc. Qed.

Lemma posts_app (a b : list Event) : posts (a ++ b) = posts a ++ posts b.
Proof. unfold posts. apply omap_app. Qed.

Lemma trace_record (evs : list Event) (s : State) :
  trace (record evs s) = trace s ++ evs.
Proof. reflexivity. Qed.

Lemma append_empty_r (text : string) : text +:+ "" = text.
Proof.
  induction text as [|c rest IH]; [done|].
  change (String c (rest +:+ "") = String c rest). by rewrite IH.
Qed.

Lemma append_assoc (a b c : string) : (a +:+ b) +:+ c = a +:+ b +:+ c.
Proof.
  induction a as [|x rest IH]; [done|].
  change (String x ((rest +:+ b) +:+ c) = String x (rest +:+ b +:+ c)). by rewrite IH.
Qed.

Lemma record_nil (s : State) : record [] s = s.
Proof. destruct s. unfold record; simpl. by rewrite app_nil_r. Qed.

Lemma trace_clock_read (s : State) : trace (clock_read s) = trace s.
Proof. reflexivity. Qed.

Ltac eff_unfold :=
  repeat progress
    (unfold try_catch, bind, ret, throw, lift, await, emit, console_log, console_error,
       process_exit, new_Date, axios_get, axios_post in *; simpl in * ).

Section Containment.
Import Cycle.

Lemma contains_refl (text : string) : contains text text.
Proof. exists "", "". by rewrite append_empty_r. Qed.

Lemma contains_append (text whole before after : string) :
  contains text whole -> contains text (before +:+ whole +:+ after).
Proof.
  intros (b & a & ->). exists (before +:+ b), (a +:+ after).
  by rewrite !append_assoc.
Qed.

Lemma contains_append_l (text whole before : string) :
  contains text whole -> contains text (before +:+ whole).
Proof.
  intros Hin. rewrite <- (append_empty_r whole). by apply contains_append.
Qed.

Lemma contains_append_r (text whole after : string) :
  contains text whole -> contains text (whole +:+ after).
Proof. intros Hin. by apply (contains_append text whole "" after). Qed.

Lemma contains_trans (a b c : string) :
  contains a b -> contains b c -> contains a c.
Proof. intros Hab (before & after & ->). by apply contains_append. Qed.

(** Every part stands in the parts joined. *)
Lemma contains_concat (sep part : string) (parts : list string) :
  part ∈ parts -> contains part (String.concat sep parts).
Proof.
  induction parts as [|first rest IH]; [by intros ?%elem_of_nil|].
  intros [->|Hin]%elem_of_cons.
  - destruct rest; [apply contains_refl|]. cbn [String.concat].
    apply contains_append_r, contains_refl.
  - destruct rest as [|second rest]; [by apply elem_of_nil in Hin|].
    change (contains part (first +:+ sep +:+ String.concat sep (second :: rest))).
    by apply contains_append_l, contains_append_l, IH.
Qed.

Lemma contains_wrap (opening closing gap indent part : string) (parts : list string) :
  part ∈ parts -> contains part (wrap opening closing gap indent parts).
Proof.
  intros Hin. unfold wrap.
  destruct parts as [|first rest]; [by apply elem_of_nil in Hin|].
  destruct (String.eqb gap "").
  - by apply contains_append, contains_concat.
  - do 3 apply contains_append_l. by apply contains_append, contains_concat.
Qed.

(** An array shows each of its items, one level deeper. *)
Lemma contains_item (E : Engine) (gap indent : string) (item : json)
    (items : list json) :
  item ∈ items ->
  contains (stringify E gap (indent +:+ gap) item) (stringify E gap indent (JArr items)).
Proof.
  intros Hin. cbn [stringify]. apply contains_wrap.
  apply list_elem_of_fmap. by exists item.
Qed.

(** An object shows each of its keys with its value, one level deeper. *)
Lemma contains_field (E : Engine) (gap indent key : string) (value : json)
    (fields : list (string * json)) :
  (key, value) ∈ fields ->
  contains (JSON_quote key +:+ (if String.eqb gap "" then ":" else ": ")
              +:+ stringify E gap (indent +:+ gap) value)
    (stringify E gap indent (JObj fields)).
Proof.
  intros Hin. cbn [stringify]. apply contains_wrap.
  apply list_elem_of_fmap. by exists (key, value).
Qed.

Lemma issue_object_keys (issue : Zod.ZodIssue) :
  exists fields,
    Zod.issue_object issue = JObj fields
    /\ ("message", JStr (Zod.message issue)) ∈ fields
    /\ ("path", JArr (Zod.key_json <$> Zod.path issue)) ∈ fields.
Proof.
  unfold Zod.issue_object. eexists. split; [reflexivity|].
  destruct (Zod.message_first issue); split;
    rewrite !elem_of_app, !elem_of_cons, !elem_of_app, !elem_of_cons; auto.
Qed.

(** [error.message] of a [ZodError] shows, for each issue, its message and
    its path, each key of the path included. *)
Lemma ZodError_message_shows (E : Engine) (error : Zod.ZodError) (issue : Zod.ZodIssue) :
  issue ∈ Zod.issues error ->
  contains (JSON_quote "message" +:+ ": " +:+ JSON_quote (Zod.message issue))
    (Zod.ZodError_message E error)
  /\ contains (JSON_quote "path" +:+ ": "
                 +:+ stringify E "  " "    " (JArr (Zod.key_json <$> Zod.path issue)))
       (Zod.ZodError_message E error)
  /\ forall name, Zod.Key name ∈ Zod.path issue ->
       contains (JSON_quote name) (Zod.ZodError_message E error).
Proof.
  intros Hin.
  assert (contains (stringify E "  " "  " (Zod.issue_object issue))
            (Zod.ZodError_message E error)) as Hobject.
  { unfold Zod.ZodError_message.
    apply (contains_item E "  " "" (Zod.issue_object issue)).
    apply list_elem_of_fmap. by exists issue. }
  destruct (issue_object_keys issue) as (fields & Hfields & Hmessage & Hpath).
  rewrite Hfields in Hobject.
  assert (contains (JSON_quote "path" +:+ ": "
                      +:+ stringify E "  " "    " (JArr (Zod.key_json <$> Zod.path issue)))
            (Zod.ZodError_message E error)) as Hshown.
  { eapply contains_trans; [|exact Hobject].
    apply (contains_field E "  " "  " "path" _ fields Hpath). }
  split_and!.
  - eapply contains_trans; [|exact Hobject].
    apply (contains_field E "  " "  " "message" _ fields Hmessage).
  - exact Hshown.
  - intros name Hname. eapply contains_trans; [|exact Hshown].
    do 2 apply contains_append_l.
    apply (contains_item E "  " "    " (JStr name)).
    apply list_elem_of_fmap. by exists (Zod.Key name).
Qed.

End Containment.

Section ServiceProperties.
Import PollingService Cycle.
Context (E : Engine) (W : World).
Context {T : Type} `{ToBoolean T}.
Context (schema : json -> Outcome (Zod.SafeParseReturn T)).
Context (config : PollingConfig).

(** [sendErrorToDiscord] posts the notification and logs how that went: what
    its [catch] meets is an error of axios, which has a text. *)
Lemma sendErrorToDiscord_spec (errorMessage : string) (s : State) :
  sendErrorToDiscord W config errorMessage s =
    (Normal tt, error_reported W config errorMessage s).
Proof.
  unfold sendErrorToDiscord, error_reported, error_body. eff_unfold.
  destruct (axios_post_result W (trace s) (webhookUrl config) _) as [[]|e]; simpl;
    by rewrite record_record.
Qed.

(** What [sendToDiscord] does, by what the transform and the webhook do. *)
Lemma sendToDiscord_spec (templateFn : T -> string -> M json) (data : T) (s : State) :
  sendToDiscord W templateFn config data s =
    match templateFn data (format (clock W (clock_reads s))) (clock_read s) with
    | (Normal payload, s1) =>
        (Normal tt,
         record
           [AxiosPost (webhookUrl config) payload;
            match axios_post_result W (trace s1) (webhookUrl config) payload with
            | Returns _ => ConsoleLog "Data sent to Discord successfully"
            | Throws e => ConsoleError ("Error sending to Discord: " +:+ rejection_text e)
            end]
           s1)
    | (Throw e, s1) =>
        match template_of e with
        | Returns text =>
            (Normal tt, record [ConsoleError ("Error sending to Discord: " +:+ text)] s1)
        | Throws thrown => (Throw thrown, s1)
        end
    | (Exit code, s1) => (Exit code, s1)
    end.
Proof.
  unfold sendToDiscord. eff_unfold.
  destruct (templateFn data _ (clock_read s)) as [[payload|e|code] s1]; simpl; try done.
  - destruct (axios_post_result W (trace s1) (webhookUrl config) payload) as [[]|e]; simpl;
      by rewrite record_record.
  - by destruct (template_of e).
Qed.

(** A failure [fetchData] has a text for does not escape it. *)
Lemma failure_text_escapes (o : FetchOutcome T) (text : string) :
  failure_text E o = Some text -> escapes o = None.
Proof.
  destruct o as [data|error|e]; simpl; try done.
  by destruct (caught_throws e).
Qed.

(** A failure that does not escape [fetchData] has a text. *)
Lemma escapes_failure_text (e : Thrown) :
  caught_throws e = None ->
  exists errorMessage,
    errorMessage_of e = Some errorMessage
    /\ failure_text E (Failed e : FetchOutcome T)
       = Some ("Error fetching data: " +:+ errorMessage).
Proof.
  intros Hreturns. cbn [failure_text]. rewrite Hreturns.
  unfold caught_throws, errorMessage_of in *.
  destruct (caught_text e) as [text|thrown]; [|done]. by exists text.
Qed.

(** [fetchData] returns the value, or [null] once the failure has been
    reported; it throws what its [catch] throws while rendering the value it
    caught. *)
Lemma fetchData_spec (s : State) :
  fetchData E W schema config s =
    (match escapes (fetch_outcome W schema config s) with
     | Some thrown => Throw thrown
     | None => Normal (fetched_value W schema config s)
     end,
     fetched E W schema config s).
Proof.
  assert (forall e s0,
            (errorMessage <- lift (caught_text e) ;;
             console_error ("Error fetching data: " +:+ errorMessage) ;;
             match response e with
             | Some answer =>
                 status <- lift (status_text answer) ;;
                 console_error ("Status: " +:+ status) ;;
                 value <- lift (data answer) ;;
                 console_error ("Data: " +:+ JSON_stringify E value)
             | None => ret tt
             end ;;
             sendErrorToDiscord W config ("Error fetching data: " +:+ errorMessage) ;;
             ret None)%eff s0
            = (match caught_throws e with
               | Some thrown => Throw thrown
               | None => Normal (None : option T)
               end,
               let logged := record (caught_log E e) s0 in
               match failure_text E (Failed e : FetchOutcome T) with
               | Some text => error_reported W config text logged
               | None => logged
               end)) as Hcatch.
  { intros e s0. cbn [failure_text]. unfold caught_throws, caught_log, errorMessage_of.
    destruct (caught_text e) as [text|thrown]; eff_unfold; [|by rewrite record_nil].
    destruct (response e) as [answer|]; eff_unfold.
    - destruct (status_text answer) as [status|thrown]; eff_unfold; [|done].
      destruct (data answer) as [value|thrown]; eff_unfold.
      + by rewrite !record_record, sendErrorToDiscord_spec.
      + by rewrite !record_record.
    - by rewrite sendErrorToDiscord_spec. }
  unfold fetchData, fetched, fetched_value, fetch_outcome, requested.
  unfold try_catch at 1. unfold bind at 1, console_log at 1, emit at 1.
  cbv beta iota. unfold bind at 1, axios_get at 1.
  unfold bind at 1, emit at 1. cbv beta iota. rewrite record_record.
  cbn [trace record app].
  destruct (axios_get_result W _ (url config)) as [d|e]; cbn [await].
  - unfold ret at 1. cbv beta iota.
    unfold bind at 1. destruct (schema d) as [[v|err]|e]; cbn [lift].
    + done.
    + unfold ret at 1. cbv beta iota. eff_unfold.
      by rewrite sendErrorToDiscord_spec.
    + unfold throw at 1. cbv beta iota. cbn [escapes failure_log].
      apply (Hcatch e).
  - unfold throw at 1. cbv beta iota. cbn [escapes failure_log].
    apply (Hcatch (thrown_of e)).
Qed.

(** [runPolling] is [fetchData] followed by at most one [sendToDiscord]. *)
Lemma runPolling_spec (templateFn : T -> string -> M json) (s : State) :
  runPolling E W schema templateFn config s =
    let s1 := fetched E W schema config (polling_started W s) in
    match escapes (cycle_outcome W schema config s) with
    | Some thrown => (Throw thrown, s1)
    | None =>
        match cycle_outcome W schema config s with
        | Valid data =>
            if toBoolean data
            then sendToDiscord W templateFn config data
                   (record [ConsoleLog "Data received:"] s1)
            else (Normal tt, record [ConsoleError "Failed to fetch valid data"] s1)
        | _ => (Normal tt, record [ConsoleError "Failed to fetch valid data"] s1)
        end
    end.
Proof.
  unfold runPolling, cycle_outcome.
  unfold bind at 1. unfold new_Date at 1. cbv beta iota.
  unfold bind at 1. unfold console_log at 1, emit at 1. cbv beta iota.
  fold (polling_started W s).
  unfold bind at 1. rewrite fetchData_spec. unfold fetched_value.
  destruct (fetch_outcome W schema config (polling_started W s)) as [v|err|e]; simpl.
  - destruct (toBoolean v); [|done].
    unfold bind, console_log, emit. done.
  - done.
  - by destruct (caught_throws e).
Qed.

Lemma posts_error_reported (errorMessage : string) (s : State) :
  posts (trace (error_reported W config errorMessage s))
  = posts (trace s) ++ [(webhookUrl config, error_body W errorMessage s)].
Proof.
  unfold error_reported. rewrite trace_record, trace_clock_read, posts_app.
  by destruct (axios_post_result W _ _ _).
Qed.

Lemma posts_failure_log (o : FetchOutcome T) : posts (failure_log E o) = [].
Proof.
  destruct o as [v|err|e]; simpl; try done. unfold caught_log.
  destruct (caught_text e); [|done]. destruct (response e) as [answer|]; [|done].
  destruct (status_text answer); [|done]. by destruct (data answer).
Qed.

(** The only request [fetchData] makes to the webhook is the error
    notification, and it makes it exactly when it has a failure to report. *)
Lemma posts_fetched (s : State) :
  posts (trace (fetched E W schema config s))
  = posts (trace s)
    ++ match failure_text E (fetch_outcome W schema config s) with
       | Some errorMessage => [(webhookUrl config, error_body W errorMessage s)]
       | None => []
       end.
Proof.
  assert (forall o : FetchOutcome T,
            posts (trace (let logged := record (failure_log E o) (requested config s) in
                          match failure_text E o with
                          | Some text => error_reported W config text logged
                          | None => logged
                          end))
            = posts (trace s)
              ++ match failure_text E o with
                 | Some errorMessage => [(webhookUrl config, error_body W errorMessage s)]
                 | None => []
                 end) as Hfailed.
  { intros o. cbv zeta. destruct (failure_text E o) as [text|].
    - rewrite posts_error_reported. unfold requested.
      rewrite !trace_record, !posts_app, posts_failure_log. simpl.
      by rewrite !app_nil_r.
    - unfold requested. rewrite !trace_record, !posts_app, posts_failure_log. simpl.
      by rewrite !app_nil_r. }
  unfold fetched.
  destruct (fetch_outcome W schema config s) as [data|error|e];
    [|apply Hfailed..].
  unfold requested. rewrite trace_record, posts_app. simpl. by rewrite app_nil_r.
Qed.

(** C7. For every error message, the request [sendErrorToDiscord] makes to
    the webhook carries exactly one embed with the title "❌ Polling Error",
    the colour 0xFF0000 (red), the message as its description and the footer
    text "Polling • <timestamp>", the timestamp being the local time
    formatted as yyyy-MM-dd HH:mm:ss; it makes no other request. *)
Theorem error_notification_shape (errorMessage : string) (s : State) :
  exists s',
    sendErrorToDiscord W config errorMessage s = (Normal tt, s')
    /\ posts (trace s')
       = posts (trace s)
         ++ [(webhookUrl config,
              JObj [("embeds",
                     JArr [JObj [("title", JStr "❌ Polling Error");
                                 ("color", JNum (NInt 0xFF0000));
                                 ("description", JStr errorMessage);
                                 ("footer",
                                  JObj [("text",
                                         JStr ("Polling • "
                                               +:+ format (clock W (clock_reads s))))])]])])].
Proof.
  eexists. split; [apply sendErrorToDiscord_spec|].
  by rewrite posts_error_reported.
Qed.

(** A cycle whose fetch or validation failed, with a failure that has a
    text, completes normally, having made one request to the webhook: the
    error notification. *)
Lemma runPolling_reports_failure (templateFn : T -> string -> M json) (s : State)
    (errorMessage : string) :
  failure_text E (cycle_outcome W schema config s) = Some errorMessage ->
  exists s',
    runPolling E W schema templateFn config s = (Normal tt, s')
    /\ posts (trace s')
       = posts (trace s)
         ++ [(webhookUrl config, error_body W errorMessage (clock_read s))].
Proof.
  intros Hfail. rewrite runPolling_spec. cbv zeta.
  rewrite (failure_text_escapes _ _ Hfail).
  eexists. split.
  - destruct (cycle_outcome W schema config s) as [v|err|e']; [done|reflexivity..].
  - rewrite trace_record, posts_app, posts_fetched.
    fold (cycle_outcome W schema config s). rewrite Hfail.
    rewrite app_nil_r. unfold polling_started at 1.
    rewrite trace_record, trace_clock_read, posts_app. simpl.
    by rewrite app_nil_r.
Qed.

(** A cycle whose value is valid and truthy is one call of [sendToDiscord],
    made before any request to the webhook. *)
Lemma runPolling_delivers (templateFn : T -> string -> M json) (s : State) (data : T) :
  cycle_outcome W schema config s = Valid data ->
  toBoolean data = true ->
  exists s1,
    runPolling E W schema templateFn config s
    = sendToDiscord W templateFn config data s1
    /\ posts (trace s1) = posts (trace s).
Proof.
  intros Hvalid Htruthy. rewrite runPolling_spec. cbv zeta.
  rewrite Hvalid, Htruthy. cbn [escapes]. eexists. split; [reflexivity|].
  rewrite trace_record, posts_app, posts_fetched.
  fold (cycle_outcome W schema config s). rewrite Hvalid.
  unfold polling_started. rewrite trace_record, trace_clock_read, posts_app. simpl.
  by rewrite !app_nil_r.
Qed.

(** A cycle whose value is valid and falsy delivers nothing. *)
Lemma runPolling_drops_falsy (templateFn : T -> string -> M json) (s : State) (data : T) :
  cycle_outcome W schema config s = Valid data ->
  toBoolean data = false ->
  exists s',
    runPolling E W schema templateFn config s = (Normal tt, s')
    /\ posts (trace s') = posts (trace s).
Proof.
  intros Hvalid Hfalsy. rewrite runPolling_spec. cbv zeta.
  rewrite Hvalid, Hfalsy. cbn [escapes]. eexists. split; [reflexivity|].
  rewrite trace_record, posts_app, posts_fetched.
  fold (cycle_outcome W schema config s). rewrite Hvalid.
  unfold polling_started. rewrite trace_record, trace_clock_read, posts_app. simpl.
  by rewrite !app_nil_r.
Qed.

(** When the transform throws a value that a template literal cannot
    convert, the [catch] of [sendToDiscord] throws in its turn, and so does
    the cycle. *)
Lemma runPolling_rejects_with_delivery (templateFn : T -> string -> M json)
    (s : State) (data : T) (e thrown : Thrown) :
  cycle_outcome W schema config s = Valid data ->
  toBoolean data = true ->
  (forall timestamp s0, exists s1, templateFn data timestamp s0 = (Throw e, s1)) ->
  template_of e = Throws thrown ->
  exists s', runPolling E W schema templateFn config s = (Throw thrown, s').
Proof.
  intros Hvalid Htruthy Htemplate Htext.
  destruct (runPolling_delivers templateFn s data Hvalid Htruthy) as (s1 & -> & _).
  rewrite sendToDiscord_spec.
  destruct (Htemplate (format (clock W (clock_reads s1))) (clock_read s1)) as [s2 ->].
  rewrite Htext. by eexists.
Qed.

(** C6. When the payload fails schema validation, the cycle makes exactly
    one request to the webhook: the error notification.  Its description is
    "Schema validation failed: " followed by the failure text of the
    validator, zod's rendering of the issues as JSON; for every issue the
    schema reported, the description shows the message of the issue and its
    path, each key of the path included.  The transform plays no part in
    such a cycle: nothing is delivered as a success. *)
Theorem validation_failure_reported (templateFn : T -> string -> M json)
    (s : State) (error : Zod.ZodError) :
  cycle_outcome W schema config s = Invalid error ->
  exists s' description,
    runPolling E W schema templateFn config s = (Normal tt, s')
    /\ posts (trace s')
       = posts (trace s)
         ++ [(webhookUrl config,
              JObj [("embeds",
                     JArr [JObj [("title", JStr "❌ Polling Error");
                                 ("color", JNum (NInt 0xFF0000));
                                 ("description", JStr description);
                                 ("footer",
                                  JObj [("text",
                                         JStr ("Polling • "
                                               +:+ format (clock W (S (clock_reads s)))))])]])])]
    /\ description
       = "Schema validation failed: "
           +:+ stringify E "  " "" (JArr (Zod.issue_object <$> Zod.issues error))
    /\ contains (Zod.ZodError_message E error) description
    /\ (forall issue, issue ∈ Zod.issues error ->
          contains (JSON_quote "message" +:+ ": " +:+ JSON_quote (Zod.message issue))
            description
          /\ contains (JSON_quote "path" +:+ ": "
                         +:+ stringify E "  " "    " (JArr (Zod.key_json <$> Zod.path issue)))
               description
          /\ forall name, Zod.Key name ∈ Zod.path issue ->
               contains (JSON_quote name) description)
    /\ (forall otherTemplate : T -> string -> M json,
          runPolling E W schema otherTemplate config s = (Normal tt, s')).
Proof.
  intros Hinvalid.
  destruct (runPolling_reports_failure templateFn s
              ("Schema validation failed: " +:+ Zod.ZodError_message E error))
    as (s' & Hrun & Hposts).
  { by rewrite Hinvalid. }
  exists s', ("Schema validation failed: " +:+ Zod.ZodError_message E error).
  split_and!.
  - done.
  - by rewrite Hposts.
  - done.
  - apply contains_append_l, contains_refl.
  - intros issue Hissue.
    destruct (ZodError_message_shows E error issue Hissue) as (Hmessage & Hpath & Hkeys).
    split_and!; [by apply contains_append_l..|].
    intros name Hname. by apply contains_append_l, Hkeys.
  - intros other. rewrite runPolling_spec in Hrun |- *.
    by rewrite Hinvalid in Hrun |- *.
Qed.

(** C2, as amended.  Unless its [catch] throws while it renders the value
    it caught (a value that is no [Error] and that [String] cannot convert,
    for one), [fetchData] does not throw or reject: it completes with the
    validated value when the fetch and the validation succeed and with
    [null] otherwise, whichever of the two failed.  The kind of failure does
    not reach the caller; it is told to the webhook, in the one error
    notification [fetchData] itself sends before it returns. *)
Theorem fetchData_returns_value_or_null (s : State) :
  escapes (fetch_outcome W schema config s) = None ->
  exists s',
    fetchData E W schema config s
    = (Normal match fetch_outcome W schema config s with
              | Valid data => Some data
              | Invalid _ | Failed _ => None
              end, s')
    /\ match fetch_outcome W schema config s with
       | Valid _ => posts (trace s') = posts (trace s)
       | Invalid error =>
           posts (trace s')
           = posts (trace s)
             ++ [(webhookUrl config,
                  error_body W
                    ("Schema validation failed: " +:+ Zod.ZodError_message E error) s)]
       | Failed e =>
           exists errorMessage,
             errorMessage_of e = Some errorMessage
             /\ posts (trace s')
                = posts (trace s)
                  ++ [(webhookUrl config,
                       error_body W ("Error fetching data: " +:+ errorMessage) s)]
       end.
Proof.
  intros Hconverts. eexists. split.
  - rewrite fetchData_spec, Hconverts. reflexivity.
  - rewrite posts_fetched.
    destruct (fetch_outcome W schema config s) as [data|error|e].
    + simpl. by rewrite app_nil_r.
    + done.
    + cbn [escapes] in Hconverts.
      destruct (escapes_failure_text e Hconverts) as (errorMessage & Htext & ->).
      by exists errorMessage.
Qed.

End ServiceProperties.

Section ScenarioProperties.
Import PollingService Cycle Config Schema Scenarios.

Lemma validation_failure_reported_witness :
  exists s' description,
    Index.runPolling engine incomplete_world (config 5) boot = (Normal tt, s')
    /\ posts (trace s')
       = posts (trace boot)
         ++ [(webhookUrl (config 5),
              JObj [("embeds",
                     JArr [JObj [("title", JStr "❌ Polling Error");
                                 ("color", JNum (NInt 0xFF0000));
                                 ("description", JStr description);
                                 ("footer",
                                  JObj [("text",
                                         JStr ("Polling • "
                                               +:+ format
                                                     (clock incomplete_world
                                                        (S (clock_reads boot)))))])]])])]
    /\ description
       = "Schema validation failed: "
           +:+ stringify engine "  " ""
                 (JArr (Zod.issue_object
                          <$> [received_nan [Zod.Key "daily_active_users"];
                               received_nan [Zod.Key "weekly_active_users"];
                               received_nan [Zod.Key "monthly_active_users"]]))
    /\ contains
         (Zod.ZodError_message engine
            {| Zod.issues := [received_nan [Zod.Key "daily_active_users"];
                              received_nan [Zod.Key "weekly_active_users"];
                              received_nan [Zod.Key "monthly_active_users"]] |})
         description
    /\ (forall issue,
          issue ∈ [received_nan [Zod.Key "daily_active_users"];
                   received_nan [Zod.Key "weekly_active_users"];
                   received_nan [Zod.Key "monthly_active_users"]] ->
          contains (JSON_quote "message" +:+ ": " +:+ JSON_quote (Zod.message issue))
            description
          /\ contains (JSON_quote "path" +:+ ": "
                         +:+ stringify engine "  " "    " (JArr (Zod.key_json <$> Zod.path issue)))
               description
          /\ forall name, Zod.Key name ∈ Zod.path issue ->
               contains (JSON_quote name) description)
    /\ (forall otherTemplate : Payload -> string -> M json,
          runPolling engine incomplete_world payload_schema otherTemplate (config 5) boot
          = (Normal tt, s')).
Proof.
  apply (validation_failure_reported engine incomplete_world payload_schema (config 5)
           (Index.createDiscordMessage engine incomplete_world) boot
           {| Zod.issues := [received_nan [Zod.Key "daily_active_users"];
                             received_nan [Zod.Key "weekly_active_users"];
                             received_nan [Zod.Key "monthly_active_users"]] |}).
  reflexivity.
Defined.

(** What the webhook is told when the three counts are missing, as zod
    writes it. *)
Example missing_counts_described :
  exists s' body,
    Index.runPolling engine incomplete_world (config 5) boot = (Normal tt, s')
    /\ posts (trace s') = [(webhookUrl (config 5), body)]
    /\ Run.embed_get "description" body
       = Some (JStr ("Schema validation failed: "
                     +:+ Zod.ZodError_message engine
                           {| Zod.issues := [received_nan [Zod.Key "daily_active_users"];
                                             received_nan [Zod.Key "weekly_active_users"];
                                             received_nan [Zod.Key "monthly_active_users"]] |}))
    /\ contains "Expected number, received nan"
         (Zod.ZodError_message engine
            {| Zod.issues := [received_nan [Zod.Key "daily_active_users"];
                              received_nan [Zod.Key "weekly_active_users"];
                              received_nan [Zod.Key "monthly_active_users"]] |})
    /\ contains "weekly_active_users"
         (Zod.ZodError_message engine
            {| Zod.issues := [received_nan [Zod.Key "daily_active_users"];
                              received_nan [Zod.Key "weekly_active_users"];
                              received_nan [Zod.Key "monthly_active_users"]] |}).
Proof.
  eexists _, _. split; [reflexivity|]. split; [reflexivity|]. split; [reflexivity|].
  split.
  - destruct (ZodError_message_shows engine
                {| Zod.issues := [received_nan [Zod.Key "daily_active_users"];
                                  received_nan [Zod.Key "weekly_active_users"];
                                  received_nan [Zod.Key "monthly_active_users"]] |}
                (received_nan [Zod.Key "weekly_active_users"])) as (Hmessage & _ & _).
    { simpl. apply elem_of_cons. right. apply elem_of_cons. by left. }
    eapply contains_trans; [|exact Hmessage].
    apply contains_append_l, contains_append_l.
    apply (contains_append _ _ (String double_quote "") (String double_quote "")),
      contains_refl.
  - destruct (ZodError_message_shows engine
                {| Zod.issues := [received_nan [Zod.Key "daily_active_users"];
                                  received_nan [Zod.Key "weekly_active_users"];
                                  received_nan [Zod.Key "monthly_active_users"]] |}
                (received_nan [Zod.Key "weekly_active_users"])) as (_ & _ & Hkeys).
    { simpl. apply elem_of_cons. right. apply elem_of_cons. by left. }
    eapply contains_trans; [|apply (Hkeys "weekly_active_users")].
    + apply (contains_append _ _ (String double_quote "") (String double_quote "")),
        contains_refl.
    + simpl. apply elem_of_cons. by left.
Qed.

Lemma fetchData_returns_value_or_null_witness :
  exists s',
    fetchData engine unreachable_world payload_schema (config 5) boot
    = (Normal match fetch_outcome unreachable_world payload_schema (config 5) boot with
              | Valid data => Some data
              | Invalid _ | Failed _ => None
              end, s')
    /\ match fetch_outcome unreachable_world payload_schema (config 5) boot with
       | Valid _ => posts (trace s') = posts (trace boot)
       | Invalid error =>
           posts (trace s')
           = posts (trace boot)
             ++ [(webhookUrl (config 5),
                  error_body unreachable_world
                    ("Schema validation failed: " +:+ Zod.ZodError_message engine error)
                    boot)]
       | Failed e =>
           exists errorMessage,
             errorMessage_of e = Some errorMessage
             /\ posts (trace s')
                = posts (trace boot)
                  ++ [(webhookUrl (config 5),
                       error_body unreachable_world
                         ("Error fetching data: " +:+ errorMessage) boot)]
       end.
Proof.
  apply (fetchData_returns_value_or_null engine unreachable_world payload_schema
           (config 5) boot).
  reflexivity.
Defined.

(** C2, as stated, fails: [fetchData] completes with [null] both when the
    source cannot be reached and when the payload fails validation, so no
    reading of what it returns tells a fetch error from a validation
    error. *)
Lemma fetchData_result_not_tagged :
  ~ returns_tagged_result
      (fun W => fetchData engine W payload_schema (config 5))
      (fun W => fetch_outcome W payload_schema (config 5)).
Proof.
  intros [tag Htag].
  pose proof (Htag unreachable_world boot) as Hfetch.
  pose proof (Htag incomplete_world boot) as Hvalidation.
  vm_compute in Hfetch, Hvalidation. congruence.
Qed.

(** C1, at the failing input.  A service over numbers whose source answers
    [0]: the value passes the schema, so no error notification is sent, and
    [if (data)] takes it for a failure, so no notification is sent at all. *)
Lemma zero_payload_delivers_nothing :
  cycle_outcome zero_world count_schema (config 5) boot = Valid (NInt 0)
  /\ exists s',
       runPolling engine zero_world count_schema count_message (config 5) boot
       = (Normal tt, s')
       /\ posts (trace s') = []
       /\ trace s'
          = [ConsoleLog "Polling running at 2024-05-17T10:00:07.000Z";
             ConsoleLog "Fetching data from: https://source.example/metrics";
             AxiosGet "https://source.example/metrics";
             ConsoleError "Failed to fetch valid data"].
Proof. split; [reflexivity|]. eexists. repeat split. Qed.

(** The source cannot be reached: the cycle reports the failure of the
    request, in words, and nothing else. *)
Example unreachable_source_reported :
  exists s',
    Index.runPolling engine unreachable_world (config 5) boot = (Normal tt, s')
    /\ trace s'
       = [ConsoleLog "Polling running at 2024-05-17T10:00:07.000Z";
          ConsoleLog "Fetching data from: https://source.example/metrics";
          AxiosGet "https://source.example/metrics";
          ConsoleError "Error fetching data: connect ECONNREFUSED 127.0.0.1:80";
          AxiosPost "https://chat.example/webhook"
            (JObj [("embeds",
                    JArr [JObj [("title", JStr "❌ Polling Error");
                                ("color", JNum (NInt 16711680));
                                ("description",
                                 JStr "Error fetching data: connect ECONNREFUSED 127.0.0.1:80");
                                ("footer",
                                 JObj [("text", JStr "Polling • 2024-05-17 12:00:07")])]])]);
          ConsoleLog "Error sent to Discord successfully";
          ConsoleError "Failed to fetch valid data"].
Proof. eexists. split; reflexivity. Qed.

(** A transform that throws an [Error]: nothing is posted, the exception is
    logged. *)
Example broken_transform_logged :
  sendToDiscord zero_world broken_message (config 5) (NInt 7) boot
  = (Normal tt,
     record [ConsoleError "Error sending to Discord: Error: no template"]
       (clock_read boot)).
Proof. reflexivity. Qed.

(** A webhook that refuses the request: the rejection is logged. *)
Example refused_delivery_logged :
  exists s',
    Index.runPolling engine deaf_world (config 5) boot = (Normal tt, s')
    /\ length (posts (trace s')) = 1%nat
    /\ last (trace s')
       = Some (ConsoleError
                 "Error sending to Discord: AxiosError: connect ECONNREFUSED 127.0.0.1:80").
Proof. eexists. repeat split. Qed.

(** A payload one of whose counts is an object with a key [toString]:
    [Number] throws on it inside the schema, [fetchData] catches the
    TypeError and reports it as a failure of the fetch. *)
Example unconvertible_count_reported :
  exists s',
    Index.runPolling engine
      (world (Returns (JObj [("id", JStr "u1");
                             ("daily_active_users", JObj [("toString", JNum (NInt 1))])]))
         (Returns tt) ∅)
      (config 5) boot
    = (Normal tt, s')
    /\ ConsoleError "Error fetching data: Cannot convert object to primitive value"
       ∈ trace s'
    /\ length (posts (trace s')) = 1%nat.
Proof.
  eexists. split; [reflexivity|]. split; [|reflexivity].
  simpl. do 3 (apply elem_of_cons; right). apply elem_of_cons. by left.
Qed.

(** C10, at the failing input.  A transform that throws a symbol: the
    [catch] of [sendToDiscord] puts the caught value in a template literal,
    which throws a TypeError for a symbol, so [sendToDiscord] rejects, having
    logged nothing and posted nothing.  [String], which the [catch] of
    [fetchData] uses on what it meets, converts the same value. *)
Lemma sendToDiscord_rejects_on_symbol :
  halting_message (NInt 7) (format (clock seven_world (clock_reads boot))) (clock_read boot)
  = (Throw halt, clock_read boot)
  /\ template_of halt = Throws (TypeError "Cannot convert a Symbol value to a string")
  /\ String_of halt = Returns "Symbol(halt)"
  /\ sendToDiscord seven_world halting_message (config 5) (NInt 7) boot
     = (Throw (TypeError "Cannot convert a Symbol value to a string"), clock_read boot).
Proof. by split_and!. Qed.

(** C3, at the failing inputs.  A transform that throws a symbol: the value
    [7] passes the schema, [sendToDiscord] rejects in its [catch] and the
    cycle, which has no [catch] of its own, rejects with it.  A schema whose
    refinement throws an object without prototype: [String] throws in the
    [catch] of [fetchData], so the cycle rejects and the failure of the
    validation stage is never told to the webhook. *)
Lemma runPolling_rejects_outward :
  (exists s',
     runPolling engine seven_world count_schema halting_message (config 5) boot
     = (Throw (TypeError "Cannot convert a Symbol value to a string"), s')
     /\ cycle_outcome seven_world count_schema (config 5) boot = Valid (NInt 7)
     /\ posts (trace s') = [])
  /\ (exists s',
        runPolling engine seven_world refusing_schema count_message (config 5) boot
        = (Throw (TypeError "Cannot convert object to primitive value"), s')
        /\ cycle_outcome seven_world refusing_schema (config 5) boot = Failed bare_object
        /\ posts (trace s') = []).
Proof. split; eexists; by split_and!. Qed.

(** In the program of index.ts whatever [fetchData] catches is an [Error]:
    the rejection of axios, or the TypeError of [Number]. *)
Lemma payload_outcome_reported (E : Engine) (W : World) (cfg : PollingConfig)
    (s : State) :
  escapes (fetch_outcome W (safeParse_payload E) cfg s) = None.
Proof.
  unfold fetch_outcome.
  destruct (axios_get_result W _ (url cfg)) as [input|e].
  - unfold safeParse_payload.
    destruct (payloadSchema_throws input); [done|].
    by destruct (payloadSchema E input).
  - simpl. unfold caught_throws. simpl. by destruct (rejection_response e).
Qed.

(** In the program of index.ts the validated value is an object, which is
    truthy: every cycle there is one call of [sendToDiscord] or one error
    notification, never both and never neither. *)
Lemma payload_cycle_delivers_once (E : Engine) (W : World) (cfg : PollingConfig)
    (s : State) :
  (exists data s1,
     Index.runPolling E W cfg s
     = sendToDiscord W (Index.createDiscordMessage E W) cfg data s1
     /\ posts (trace s1) = posts (trace s))
  \/ (exists errorMessage s',
        Index.runPolling E W cfg s = (Normal tt, s')
        /\ posts (trace s')
           = posts (trace s)
             ++ [(webhookUrl cfg, error_body W errorMessage (clock_read s))]).
Proof.
  unfold Index.runPolling.
  pose proof (payload_outcome_reported E W cfg (polling_started W s)) as Hreported.
  fold (cycle_outcome W (safeParse_payload E) cfg s) in Hreported.
  destruct (cycle_outcome W (safeParse_payload E) cfg s) as [data|error|e] eqn:Houtcome.
  - left. exists data.
    by apply (runPolling_delivers E W _ cfg (Index.createDiscordMessage E W) s data).
  - right. eexists. apply runPolling_reports_failure. by rewrite Houtcome.
  - right. simpl in Hreported.
    destruct (escapes_failure_text (T := Payload) E e Hreported)
      as (errorMessage & _ & Htext).
    eexists. apply runPolling_reports_failure. by rewrite Houtcome.
Qed.

(** C9. When the source returns the payload of the scenario, the schema
    accepts it, the count given as the string "1234" being coerced to the
    number 1234, and the cycle makes one request to the webhook, whose three
    fields show 1,234, 5,000 and 20,000 (each between the two asterisks
    that make it bold). *)
Theorem metrics_scenario_formatted (E : Engine) (W : World) (cfg : PollingConfig)
    (s : State) :
  axios_get_result W
    (trace (polling_started W s) ++ [ConsoleLog ("Fetching data from: " +:+ url cfg)])
    (url cfg) = Returns metrics ->
  payloadSchema E metrics
  = Zod.Success {| id := "u1";
                   daily_active_users := NInt 1234;
                   weekly_active_users := NInt 5000;
                   monthly_active_users := NInt 20000 |}
  /\ Index.formatNumber E (NInt 1234) = "1,234"
  /\ Index.formatNumber E (NInt 5000) = "5,000"
  /\ Index.formatNumber E (NInt 20000) = "20,000"
  /\ exists s' body,
       Index.runPolling E W cfg s = (Normal tt, s')
       /\ posts (trace s') = posts (trace s) ++ [(webhookUrl cfg, body)]
       /\ embed_field_values body
          = [JStr "**1,234**"; JStr "**5,000**"; JStr "**20,000**"].
Proof.
  intros Hsource.
  split; [reflexivity|]. do 3 (split; [reflexivity|]).
  unfold Index.runPolling. rewrite runPolling_spec. cbv zeta.
  assert (cycle_outcome W (safeParse_payload E) cfg s
          = Valid {| id := "u1";
                     daily_active_users := NInt 1234;
                     weekly_active_users := NInt 5000;
                     monthly_active_users := NInt 20000 |}) as Hvalid.
  { unfold cycle_outcome, fetch_outcome. by rewrite Hsource. }
  rewrite Hvalid. cbn [escapes]. unfold toBoolean, Payload_ToBoolean.
  rewrite sendToDiscord_spec.
  unfold Index.createDiscordMessage at 1. eff_unfold.
  assert (posts (trace (fetched E W (safeParse_payload E) cfg (polling_started W s)))
          = posts (trace s)) as Hposts.
  { rewrite posts_fetched.
    fold (cycle_outcome W (safeParse_payload E) cfg s).
    rewrite Hvalid. unfold polling_started.
    rewrite trace_record, trace_clock_read, posts_app. simpl.
    by rewrite !app_nil_r. }
  destruct (axios_post_result W _ (webhookUrl cfg) _);
    (eexists _, _; split; [reflexivity|]; split;
     [repeat (rewrite trace_record || rewrite trace_clock_read || rewrite posts_app);
      rewrite Hposts; simpl; rewrite ?app_nil_r; reflexivity
     | reflexivity]).
Qed.

Lemma metrics_scenario_formatted_witness :
  payloadSchema engine metrics
  = Zod.Success {| id := "u1";
                   daily_active_users := NInt 1234;
                   weekly_active_users := NInt 5000;
                   monthly_active_users := NInt 20000 |}
  /\ Index.formatNumber engine (NInt 1234) = "1,234"
  /\ Index.formatNumber engine (NInt 5000) = "5,000"
  /\ Index.formatNumber engine (NInt 20000) = "20,000"
  /\ exists s' body,
       Index.runPolling engine metrics_world (config 5) boot = (Normal tt, s')
       /\ posts (trace s') = posts (trace boot) ++ [(webhookUrl (config 5), body)]
       /\ embed_field_values body
          = [JStr "**1,234**"; JStr "**5,000**"; JStr "**20,000**"].
Proof.
  apply (metrics_scenario_formatted engine metrics_world (config 5) boot).
  reflexivity.
Defined.

End ScenarioProperties.

Section ConfigProperties.
Import Zod Schema Config.
Context (E : Engine).

Lemma report_issues_spec (found : list ZodIssue) (s : State) :
  report_issues found s = (Normal tt, record (ConsoleError <$> (diagnostic <$> found)) s).
Proof.
  revert s. induction found as [|issue rest IH]; intros s; simpl.
  - by rewrite record_nil.
  - unfold bind, console_error, emit. by rewrite IH, record_record.
Qed.

Lemma z_string_url_ok (field : string) (v : option string) :
  url_ok E v = true ->
  exists text, z_string_url E [Key field] (JStr <$> v) = OK text.
Proof.
  destruct v as [text|]; simpl; [|done]. intros Hurl. exists text.
  unfold z_string_url; simpl. by rewrite Hurl.
Qed.

Lemma z_string_url_invalid (field : string) (v : option string) :
  url_ok E v = false ->
  exists issue,
    z_string_url E [Key field] (JStr <$> v) = INVALID [issue] /\ path issue = [Key field].
Proof.
  destruct v as [text|]; simpl; intros Hurl.
  - unfold z_string_url; simpl. rewrite Hurl. by eexists.
  - by eexists.
Qed.

Lemma interval_ok_parsed (field : string) (v : option string) :
  interval_ok E v = true ->
  exists n, z_coerce_number_int_positive E [Key field] (JStr <$> v) = OK n.
Proof.
  destruct v as [text|]; simpl; [|done].
  unfold z_coerce_number_int_positive, z_coerce_number; simpl.
  destruct (Number_string E text) as [z| | | |]; try done.
  intros Hpos. exists (NInt z). simpl.
  by replace (z <=? 0) with false by lia.
Qed.

Lemma interval_invalid (field : string) (v : option string) :
  interval_ok E v = false ->
  exists issue rest,
    z_coerce_number_int_positive E [Key field] (JStr <$> v) = INVALID (issue :: rest)
    /\ path issue = [Key field].
Proof.
  destruct v as [text|]; simpl.
  - unfold z_coerce_number_int_positive, z_coerce_number; simpl.
    destruct (Number_string E text) as [z| |neg|neg|]; simpl; intros Hbad.
    + replace (z <=? 0) with true by lia. by eexists _, _.
    + by eexists _, _.
    + destruct neg; by eexists _, _.
    + destruct neg; by eexists _, _.
    + by eexists _, _.
  - intros _. by eexists _, _.
Qed.

(** The schema fails exactly on the invalid settings, and reports an issue
    for each of them. *)
Lemma EnvSchema_invalid (env : RawEnv) :
  invalid_fields E env <> [] ->
  exists found,
    EnvSchema E env = Failure {| issues := found |}
    /\ forall field, field ∈ invalid_fields E env ->
         exists issue, issue ∈ found /\ path issue = [Key field].
Proof.
  unfold invalid_fields, EnvSchema. intros Hsome.
  destruct (url_ok E (raw_POLL_URL env)) eqn:Hurl;
    [destruct (z_string_url_ok "POLL_URL" _ Hurl) as [u ->]
    |destruct (z_string_url_invalid "POLL_URL" _ Hurl) as (i1 & -> & Hp1)];
  (destruct (interval_ok E (raw_POLL_INTERVAL env)) eqn:Hint;
    [destruct (interval_ok_parsed "POLL_INTERVAL" _ Hint) as [n ->]
    |destruct (interval_invalid "POLL_INTERVAL" _ Hint) as (i2 & rest & -> & Hp2)]);
  (destruct (url_ok E (raw_DISCORD_WEBHOOK_URL env)) eqn:Hhook;
    [destruct (z_string_url_ok "DISCORD_WEBHOOK_URL" _ Hhook) as [w ->]
    |destruct (z_string_url_invalid "DISCORD_WEBHOOK_URL" _ Hhook) as (i3 & -> & Hp3)]);
  simpl in *; try done;
  (eexists; split; [reflexivity|]);
  intros field Hfield; simpl;
  repeat match goal with
         | H : _ ∈ [] |- _ => by apply elem_of_nil in H
         | H : _ ∈ _ :: _ |- _ => apply elem_of_cons in H as [->|H]
         end;
  (eexists; split; [|eassumption]); set_solver.
Qed.

Lemma loadEnvs_invalid (W : World) (s : State) (found : list ZodIssue) :
  EnvSchema E (read_env W) = Failure {| issues := found |} ->
  loadEnvs E W s
  = (Throw (Error "Invalid environment configuration"),
     record (ConsoleError
               <$> "Invalid environment configuration:" :: (diagnostic <$> found)) s).
Proof.
  intros Hschema. unfold loadEnvs. rewrite Hschema.
  unfold try_catch, bind, console_error, emit, throw. simpl.
  by rewrite report_issues_spec, record_record.
Qed.

(** C8. When any of the three required settings is missing or invalid,
    [loadEnvs] throws, after printing one line for every issue the schema
    found, and every invalid setting has its line; [main] then ends the
    process with exit code 1 having only written to the console: the service
    is not started, no task is scheduled, no cycle runs. *)
Theorem invalid_configuration_prevents_startup (W : World) (s : State) :
  invalid_fields E (read_env W) <> [] ->
  exists found s',
    loadEnvs E W s
    = (Throw (Error "Invalid environment configuration"),
       record (ConsoleError
                 <$> "Invalid environment configuration:" :: (diagnostic <$> found)) s)
    /\ (forall field, field ∈ invalid_fields E (read_env W) ->
          exists text, ("- " +:+ field +:+ ": " +:+ text) ∈ diagnostic <$> found)
    /\ Index.main E W s = (Exit 1, s')
    /\ tasks s' = tasks s
    /\ cronJob s' = cronJob s
    /\ trace s'
       = trace s
         ++ (ConsoleError
               <$> ("Invalid environment configuration:" :: (diagnostic <$> found))
                   ++ startup_help).
Proof.
  intros Hinvalid.
  destruct (EnvSchema_invalid (read_env W) Hinvalid) as (found & Hschema & Hfields).
  exists found. eexists. split; [by apply loadEnvs_invalid|]. split.
  - intros field Hfield. destruct (Hfields field Hfield) as (issue & Hin & Hpath).
    exists (Zod.message issue). apply list_elem_of_fmap. exists issue. split; [|done].
    unfold diagnostic. by rewrite Hpath.
  - unfold Index.main, try_catch. unfold bind at 1.
    rewrite (loadEnvs_invalid W s found Hschema).
    unfold bind, console_error, emit, process_exit. simpl.
    rewrite !record_record. repeat split.
    rewrite trace_record. f_equal. rewrite fmap_app. simpl.
    reflexivity.
Qed.

End ConfigProperties.

Section ConfigScenario.
Import Zod Schema Config Scenarios.

Lemma invalid_configuration_prevents_startup_witness :
  exists found s',
    loadEnvs engine misconfigured_world boot
    = (Throw (Error "Invalid environment configuration"),
       record (ConsoleError
                 <$> "Invalid environment configuration:" :: (diagnostic <$> found)) boot)
    /\ (forall field, field ∈ invalid_fields engine (read_env misconfigured_world) ->
          exists text, ("- " +:+ field +:+ ": " +:+ text) ∈ diagnostic <$> found)
    /\ Index.main engine misconfigured_world boot = (Exit 1, s')
    /\ tasks s' = tasks boot
    /\ cronJob s' = cronJob boot
    /\ trace s'
       = trace boot
         ++ (ConsoleError
               <$> ("Invalid environment configuration:" :: (diagnostic <$> found))
                   ++ startup_help).
Proof.
  apply (invalid_configuration_prevents_startup engine misconfigured_world boot).
  vm_compute. discriminate.
Defined.

End ConfigScenario.

Section SchedulerProperties.
Import PollingService Scenarios.

(** When [N] divides 60 the pattern fires every [N] minutes. *)
Lemma fires_every_step (n t : Z) :
  (n | 60) -> Cron.fires {| step := n; running := true |} t = (t mod n =? 0).
Proof. intros Hdiv. unfold Cron.fires; simpl. by rewrite Z.mod_mod_divide. Qed.

Lemma stopped_never_fires (task : ScheduledTask) (t : Z) :
  Cron.fires (Cron.stopped task) t = false.
Proof. reflexivity. Qed.

(** What [start] does once node-cron has accepted the pattern. *)
Lemma start_spec (E : Engine) (cfg : PollingConfig) (n : Z) (s : State) :
  Cron.parse_every ("*/" +:+ Number_toString E (interval cfg) +:+ " * * * *") = Some n ->
  start E cfg s
  = (Normal tt,
     {| trace := trace s
                 ++ [RunPolling;
                     ConsoleLog ("Polling started! Monitoring every "
                                 +:+ Number_toString E (interval cfg) +:+ " minutes...")];
        clock_reads := clock_reads s;
        tasks := tasks s ++ [{| step := n; running := true |}];
        cronJob := Some (length (tasks s)) |}).
Proof.
  intros Hparse.
  unfold start, bind, emit, Cron.schedule, Cron.read_pattern, set_cronJob,
    console_log, emit.
  cbv beta zeta. rewrite Hparse. unfold record; simpl. by rewrite <- app_assoc.
Qed.

(** For the intervals that divide 60, [start] launches one cycle, schedules
    one task and that task fires exactly every [interval] minutes. *)
Lemma start_divisor_of_60 (E : Engine) (cfg : PollingConfig) (n : Z) (s : State) :
  n ∈ [1; 2; 3; 4; 5; 6; 10; 12; 15; 20; 30; 60] ->
  interval cfg = NInt n ->
  exists s',
    start E cfg s = (Normal tt, s')
    /\ trace s'
       = trace s ++ [RunPolling;
                     ConsoleLog ("Polling started! Monitoring every "
                                 +:+ decimal n +:+ " minutes...")]
    /\ tasks s' = tasks s ++ [{| step := n; running := true |}]
    /\ cronJob s' = Some (length (tasks s))
    /\ forall t, Cron.fires {| step := n; running := true |} t = (t mod n =? 0).
Proof.
  intros Hn Hinterval.
  assert ((n | 60) /\ Number_toString E (interval cfg) = decimal n
          /\ Cron.parse_every ("*/" +:+ decimal n +:+ " * * * *") = Some n)
    as (Hdiv & Hshow & Hparse).
  { rewrite Hinterval.
    repeat (apply elem_of_cons in Hn as [->|Hn];
            [split; [by apply Z.mod_divide|split; reflexivity]|]).
    by apply elem_of_nil in Hn. }
  eexists. split; [apply (start_spec E cfg n); by rewrite Hshow|].
  simpl. rewrite Hshow. repeat split. intros t. by apply fires_every_step.
Qed.

(** C4, at the failing input.  With an interval of 120 minutes [start]
    launches one cycle, schedules the pattern [*/120 * * * *] and announces
    a poll every 120 minutes; the task fires at every minute 0 of the hour,
    so a cycle starts 60 minutes after the one before, not 120. *)
Lemma interval_120_fires_every_hour (E : Engine) :
  exists s',
    start E (config 120) boot = (Normal tt, s')
    /\ trace s'
       = [RunPolling; ConsoleLog "Polling started! Monitoring every 120 minutes..."]
    /\ tasks s' = [{| step := 120; running := true |}]
    /\ cronJob s' = Some 0%nat
    /\ (forall t, Cron.fires {| step := 120; running := true |} t = (t mod 60 =? 0))
    /\ Cron.tick 0 s' = (Normal tt, record [RunPolling] s')
    /\ (forall t, 0 < t < 60 -> Cron.tick t s' = (Normal tt, s'))
    /\ Cron.tick 60 s' = (Normal tt, record [RunPolling] s').
Proof.
  eexists. split; [by apply (start_spec E (config 120) 120 boot)|].
  do 3 (split; [reflexivity|]).
  assert (forall t, Cron.fires {| step := 120; running := true |} t = (t mod 60 =? 0))
    as Hfires.
  { intros t. unfold Cron.fires; simpl.
    rewrite (Z.mod_small (t mod 60) 120); [done|].
    pose proof (Z.mod_pos_bound t 60). lia. }
  split; [exact Hfires|]. split; [reflexivity|]. split; [|reflexivity].
  intros t Ht. unfold Cron.tick; simpl. rewrite Hfires.
  rewrite Z.mod_small by lia. by replace (t =? 0) with false by lia.
Qed.

(** C5. [stop] does nothing when no task is registered, in particular
    before any [start]; otherwise it stops the registered task, which then
    never fires, and touches no other task.  It never throws, and a second
    [stop] in a row leaves the service and the scheduler as the first left
    them. *)
Theorem stop_cancels_and_is_idempotent (s : State) :
  stop boot = (Normal tt, boot)
  /\ (cronJob s = None -> stop s = (Normal tt, s))
  /\ (forall job, cronJob s = Some job ->
        exists s1,
          stop s = (Normal tt, s1)
          /\ cronJob s1 = Some job
          /\ tasks s1 = alter Cron.stopped job (tasks s)
          /\ (forall task, tasks s1 !! job = Some task ->
                forall t, Cron.fires task t = false)
          /\ (forall other, other <> job -> tasks s1 !! other = tasks s !! other)
          /\ trace s1 = trace s ++ [ConsoleLog "Polling stopped"])
  /\ (exists s1 s2,
        stop s = (Normal tt, s1)
        /\ stop s1 = (Normal tt, s2)
        /\ tasks s2 = tasks s1
        /\ cronJob s2 = cronJob s1
        /\ clock_reads s2 = clock_reads s1).
Proof.
  split; [reflexivity|]. split; [|split].
  - intros Hnone. unfold stop. by rewrite Hnone.
  - intros job Hjob. unfold stop. rewrite Hjob.
    eexists. split; [reflexivity|]. simpl. split_and!; try done.
    + intros task Htask t. rewrite list_lookup_alter_eq in Htask.
      destruct (tasks s !! job) as [before|]; simpl in Htask; [|done].
      injection Htask as <-. apply stopped_never_fires.
    + intros other Hother. by rewrite list_lookup_alter_ne.
  - unfold stop. destruct (cronJob s) as [job|] eqn:Hjob.
    + eexists _, _. split; [reflexivity|]. simpl. rewrite Hjob.
      split; [reflexivity|]. simpl. split_and!; try done.
      rewrite list_alter_alter_eq. by apply list_alter_ext.
    + exists s, s. by rewrite Hjob.
Qed.

(** [start] does not look at [this.cronJob]: started twice, the service
    holds the second task only, and [stop] leaves the first one running. *)
Remark double_start_keeps_first_trigger (E : Engine) :
  exists s1 s2 s3,
    start E (config 5) boot = (Normal tt, s1)
    /\ start E (config 5) s1 = (Normal tt, s2)
    /\ stop s2 = (Normal tt, s3)
    /\ tasks s3 = [{| step := 5; running := true |}; {| step := 5; running := false |}]
    /\ Cron.tick 5 s3 = (Normal tt, record [RunPolling] s3).
Proof.
  eexists _, _, _.
  split; [by apply (start_spec E (config 5) 5 boot)|].
  split; [by apply (start_spec E (config 5) 5)|].
  by repeat split.
Qed.

End SchedulerProperties.

(** * Further properties of the program *)

Section DecimalProperties.
Import Cron.

Lemma digits_value_acc (d : Decimal.uint) (acc : positive) :
  digits_value (Z.pos acc) (NilEmpty.string_of_uint d)
  = Some (Z.pos (Pos.of_uint_acc d acc)).
Proof.
  revert acc. induction d; intros acc; simpl; [done|..];
    rewrite <- IHd; f_equal; lia.
Qed.

Lemma digits_value_uint (d : Decimal.uint) :
  digits_value 0 (NilEmpty.string_of_uint d) = Some (Z.of_N (Pos.of_uint d)).
Proof.
  induction d; simpl; [done|exact IHd|..]; apply digits_value_acc.
Qed.

Lemma string_of_to_uint (p : positive) :
  NilZero.string_of_uint (Pos.to_uint p) = NilEmpty.string_of_uint (Pos.to_uint p).
Proof.
  pose proof (DecimalPos.Unsigned.to_uint_nonnil p) as Hnil.
  by destruct (Pos.to_uint p).
Qed.

(** Reading the digits printed for a positive integer gives it back. *)
Lemma digits_value_decimal (n : Z) : 0 < n -> digits_value 0 (decimal n) = Some n.
Proof.
  destruct n as [|p|p]; [lia| |lia]. intros _.
  unfold decimal; simpl. rewrite string_of_to_uint, digits_value_uint.
  by rewrite DecimalPos.Unsigned.of_to.
Qed.

Lemma until_space_uint (d : Decimal.uint) (tail : string) :
  until_space (NilEmpty.string_of_uint d +:+ String " " tail)
  = (NilEmpty.string_of_uint d, String " " tail).
Proof. induction d; simpl; [done|..]; by rewrite IHd. Qed.

Lemma decimal_not_empty (n : Z) : 0 < n -> decimal n <> "".
Proof.
  destruct n as [|p|p]; [lia| |lia]. intros _.
  unfold decimal; simpl. rewrite string_of_to_uint.
  pose proof (DecimalPos.Unsigned.to_uint_nonnil p) as Hnil.
  by destruct (Pos.to_uint p).
Qed.

Lemma parse_every_word (word : string) (n : Z) :
  until_space (word +:+ " * * * *") = (word, " * * * *") ->
  word <> "" ->
  digits_value 0 word = Some n ->
  0 < n ->
  parse_every ("*/" +:+ word +:+ " * * * *") = Some n.
Proof.
  intros Hsplit Hne Hdigits Hpos.
  change (parse_every (String "*" (String "/" (word +:+ " * * * *"))) = Some n).
  cbn [parse_every]. rewrite Hsplit. cbn [String.eqb Ascii.eqb Bool.eqb].
  destruct word as [|c rest]; [done|].
  rewrite Hdigits. by replace (0 <? n) with true by lia.
Qed.

(** node-cron reads back the interval the service printed into its pattern. *)
Lemma parse_every_decimal (n : Z) :
  0 < n -> parse_every ("*/" +:+ decimal n +:+ " * * * *") = Some n.
Proof.
  intros Hpos. apply parse_every_word; [|by apply decimal_not_empty
                                       |by apply digits_value_decimal|done].
  destruct n as [|p|p]; [lia| |lia]. unfold decimal; simpl.
  rewrite string_of_to_uint. apply until_space_uint.
Qed.

End DecimalProperties.

Section SchedulerExtras.
Import PollingService Scenarios Run.

Lemma safe_interval_shown (E : Engine) (n : Z) :
  0 < n <= MAX_SAFE -> Number_toString E (NInt n) = decimal n.
Proof.
  intros Hn. unfold Number_toString, is_safe.
  by replace (Z.abs n <=? MAX_SAFE) with true by lia.
Qed.

(** What [start] leaves for an interval node-cron accepts. *)
Lemma start_safe_interval (E : Engine) (cfg : PollingConfig) (n : Z) (s : State) :
  interval cfg = NInt n ->
  0 < n <= MAX_SAFE ->
  start E cfg s = (Normal tt, started n (decimal n) s).
Proof.
  intros Hinterval Hn.
  rewrite (start_spec E cfg n s).
  - unfold started. by rewrite Hinterval, safe_interval_shown.
  - rewrite Hinterval, safe_interval_shown by done. apply parse_every_decimal. lia.
Qed.

(** X1. For every interval that is a positive integer up to 2^53, node-cron
    accepts the pattern [start] builds: [start] does not throw, launches one
    cycle, registers one running task whose step is the interval, keeps its
    handle and announces the interval. *)
Theorem start_registers_interval (E : Engine) (cfg : PollingConfig) (n : Z)
    (s : State) :
  interval cfg = NInt n ->
  0 < n <= MAX_SAFE ->
  exists s',
    start E cfg s = (Normal tt, s')
    /\ trace s'
       = trace s
         ++ [RunPolling;
             ConsoleLog ("Polling started! Monitoring every "
                         +:+ decimal n +:+ " minutes...")]
    /\ tasks s' = tasks s ++ [{| step := n; running := true |}]
    /\ cronJob s' = Some (length (tasks s))
    /\ Cron.parse_every ("*/" +:+ decimal n +:+ " * * * *") = Some n.
Proof.
  intros Hinterval Hn. exists (started n (decimal n) s).
  split; [by apply start_safe_interval|]. split_and!; try done.
  apply parse_every_decimal. lia.
Qed.

Lemma start_registers_interval_witness :
  exists s',
    start engine (config 45) boot = (Normal tt, s')
    /\ trace s'
       = trace boot
         ++ [RunPolling;
             ConsoleLog ("Polling started! Monitoring every "
                         +:+ decimal 45 +:+ " minutes...")]
    /\ tasks s' = tasks boot ++ [{| step := 45; running := true |}]
    /\ cronJob s' = Some (length (tasks boot))
    /\ Cron.parse_every ("*/" +:+ decimal 45 +:+ " * * * *") = Some 45.
Proof.
  apply (start_registers_interval engine (config 45) 45 boot); [reflexivity|].
  unfold MAX_SAFE. lia.
Defined.

(** X2. An interval that is an integer from 60 up to 2^53 polls every hour:
    the task [start] registers fires exactly at the minutes that begin an
    hour, whichever interval of that range is configured.  (Above 2^53 the
    interval is not printed as a run of digits, and what node-cron makes of
    the pattern is not part of this statement.) *)
Theorem long_interval_polls_hourly (E : Engine) (cfg : PollingConfig) (n : Z)
    (s : State) :
  interval cfg = NInt n ->
  60 <= n <= MAX_SAFE ->
  exists s' task,
    start E cfg s = (Normal tt, s')
    /\ cronJob s' = Some (length (tasks s))
    /\ tasks s' !! length (tasks s) = Some task
    /\ forall t, Cron.fires task t = (t mod 60 =? 0).
Proof.
  intros Hinterval Hn.
  exists (started n (decimal n) s), {| step := n; running := true |}.
  split; [apply start_safe_interval; [done|lia]|].
  split; [done|]. split.
  - simpl. by apply list_lookup_middle.
  - intros t. unfold Cron.fires; simpl.
    pose proof (Z.mod_pos_bound t 60).
    rewrite (Z.mod_small (t mod 60) n); [done|lia].
Qed.

Lemma long_interval_polls_hourly_witness :
  exists s' task,
    start engine (config 1440) boot = (Normal tt, s')
    /\ cronJob s' = Some (length (tasks boot))
    /\ tasks s' !! length (tasks boot) = Some task
    /\ forall t, Cron.fires task t = (t mod 60 =? 0).
Proof.
  apply (long_interval_polls_hourly engine (config 1440) 1440 boot); [reflexivity|].
  unfold MAX_SAFE. lia.
Defined.

Lemma run_callbacks_idle (ts : list ScheduledTask) (t : Z) (s : State) :
  Forall (fun task => running task = false) ts ->
  Cron.run_callbacks ts t s = (Normal tt, s).
Proof.
  induction 1 as [|task rest Hstopped _ IH]; simpl; [done|].
  unfold bind, Cron.fires. rewrite Hstopped. simpl. exact IH.
Qed.

(** X3. [stop] after [start] silences the scheduler: when no other task was
    running, the task [start] registered is stopped, no task is running any
    more, and no minute launches a cycle. *)
Theorem start_then_stop_silences (E : Engine) (cfg : PollingConfig) (n : Z)
    (s : State) :
  idle s ->
  interval cfg = NInt n ->
  0 < n <= MAX_SAFE ->
  exists s1 s2,
    start E cfg s = (Normal tt, s1)
    /\ stop s1 = (Normal tt, s2)
    /\ tasks s2 = tasks s ++ [{| step := n; running := false |}]
    /\ idle s2
    /\ forall t, Cron.tick t s2 = (Normal tt, s2).
Proof.
  intros Hidle Hinterval Hn.
  eexists _, _. split; [by apply start_safe_interval|].
  split; [reflexivity|].
  assert (alter Cron.stopped (length (tasks s))
            (tasks s ++ [{| step := n; running := true |}])
          = tasks s ++ [{| step := n; running := false |}]) as Htasks.
  { rewrite <- (Nat.add_0_r (length (tasks s))) at 1. by rewrite alter_app_r. }
  assert (idle (record [ConsoleLog "Polling stopped"]
                  {| trace := trace (started n (decimal n) s);
                     clock_reads := clock_reads (started n (decimal n) s);
                     tasks := alter Cron.stopped (length (tasks s))
                                (tasks (started n (decimal n) s));
                     cronJob := cronJob (started n (decimal n) s) |})) as Hidle2.
  { unfold idle; simpl. rewrite Htasks. apply Forall_app. split; [done|].
    by repeat constructor. }
  split; [exact Htasks|]. split; [exact Hidle2|].
  intros t. unfold Cron.tick. by apply run_callbacks_idle.
Qed.

Lemma start_then_stop_silences_witness :
  exists s1 s2,
    start engine (config 5) boot = (Normal tt, s1)
    /\ stop s1 = (Normal tt, s2)
    /\ tasks s2 = tasks boot ++ [{| step := 5; running := false |}]
    /\ idle s2
    /\ forall t, Cron.tick t s2 = (Normal tt, s2).
Proof.
  apply (start_then_stop_silences engine (config 5) 5 boot).
  - constructor.
  - reflexivity.
  - unfold MAX_SAFE. lia.
Defined.

(** X4. [start] does not look at the task the service already holds: called
    twice, the service keeps the handle of the second task only.  [stop]
    then stops that one; the first stays registered and running, fires at
    every hour at least, and no further [stop] reaches it. *)
Theorem second_start_orphans_first_task (E : Engine) (cfg : PollingConfig) (n : Z)
    (s : State) :
  interval cfg = NInt n ->
  0 < n <= MAX_SAFE ->
  exists s1 s2 s3 s4,
    start E cfg s = (Normal tt, s1)
    /\ start E cfg s1 = (Normal tt, s2)
    /\ stop s2 = (Normal tt, s3)
    /\ stop s3 = (Normal tt, s4)
    /\ cronJob s4 = Some (S (length (tasks s)))
    /\ tasks s3 = tasks s ++ [{| step := n; running := true |};
                              {| step := n; running := false |}]
    /\ tasks s4 = tasks s3
    /\ forall k, Cron.fires {| step := n; running := true |} (60 * k) = true.
Proof.
  intros Hinterval Hn.
  eexists _, _, _, _. split; [by apply start_safe_interval|].
  split; [by apply start_safe_interval|].
  split; [reflexivity|]. split; [reflexivity|].
  assert (length (tasks s ++ [{| step := n; running := true |}])
          = S (length (tasks s))) as Hlen.
  { rewrite length_app. simpl. lia. }
  assert (alter Cron.stopped (S (length (tasks s)))
            ((tasks s ++ [{| step := n; running := true |}])
               ++ [{| step := n; running := true |}])
          = tasks s ++ [{| step := n; running := true |};
                        {| step := n; running := false |}]) as Htasks.
  { rewrite <- Hlen. rewrite <- (Nat.add_0_r (length (tasks s ++ _))) at 1.
    rewrite alter_app_r. simpl. by rewrite <- app_assoc. }
  simpl. rewrite Hlen. split; [done|]. split; [exact Htasks|]. split.
  - rewrite list_alter_alter_eq. by apply list_alter_ext.
  - intros k. unfold Cron.fires; simpl.
    replace (60 * k) with (k * 60) by lia. by rewrite Z.mod_mul.
Qed.

Lemma second_start_orphans_first_task_witness :
  exists s1 s2 s3 s4,
    start engine (config 5) boot = (Normal tt, s1)
    /\ start engine (config 5) s1 = (Normal tt, s2)
    /\ stop s2 = (Normal tt, s3)
    /\ stop s3 = (Normal tt, s4)
    /\ cronJob s4 = Some (S (length (tasks boot)))
    /\ tasks s3 = tasks boot ++ [{| step := 5; running := true |};
                                 {| step := 5; running := false |}]
    /\ tasks s4 = tasks s3
    /\ forall k, Cron.fires {| step := 5; running := true |} (60 * k) = true.
Proof.
  apply (second_start_orphans_first_task engine (config 5) 5 boot); [reflexivity|].
  unfold MAX_SAFE. lia.
Defined.

End SchedulerExtras.

Section ConfigExtras.
Import Zod Schema Config Run.
Context (E : Engine).

Lemma EnvSchema_valid (env : RawEnv) :
  invalid_fields E env = [] ->
  exists source text z webhook,
    raw_POLL_URL env = Some source /\ is_url E source = true
    /\ raw_POLL_INTERVAL env = Some text /\ Number_string E text = NInt z /\ 0 < z
    /\ raw_DISCORD_WEBHOOK_URL env = Some webhook /\ is_url E webhook = true
    /\ EnvSchema E env
       = Success {| POLL_URL := source; POLL_INTERVAL := NInt z;
                    DISCORD_WEBHOOK_URL := webhook |}.
Proof.
  unfold invalid_fields, EnvSchema, url_ok, interval_ok.
  destruct env as [[source|] [text|] [webhook|]]; simpl; try done;
    try (by destruct (is_url E source));
    try (by destruct (is_url E source); destruct (Number_string E text) as [z| | | |];
            try destruct (0 <? z)).
  unfold z_string_url, z_coerce_number_int_positive, z_coerce_number; simpl.
  destruct (is_url E source) eqn:Hsource; [|done].
  destruct (Number_string E text) as [z| | | |] eqn:Htext; try done.
  destruct (0 <? z) eqn:Hz; [|done].
  destruct (is_url E webhook) eqn:Hwebhook; [|done].
  intros _. exists source, text, z, webhook. simpl.
  replace (z <=? 0) with false by lia. simpl.
  split_and!; try done. lia.
Qed.

Lemma loadEnvs_accepts (W : World) (s : State) (source text : string) (z : Z)
    (webhook : string) :
  process_env W !! "POLL_URL" = Some source ->
  is_url E source = true ->
  process_env W !! "POLL_INTERVAL" = Some text ->
  Number_string E text = NInt z ->
  0 < z ->
  process_env W !! "DISCORD_WEBHOOK_URL" = Some webhook ->
  is_url E webhook = true ->
  loadEnvs E W s
  = (Normal {| POLL_URL := source; POLL_INTERVAL := NInt z;
               DISCORD_WEBHOOK_URL := webhook |}, s).
Proof.
  intros Hs Hsu Ht Hn Hz Hw Hwu.
  unfold loadEnvs, try_catch, EnvSchema, read_env; simpl.
  rewrite Hs, Ht, Hw. simpl.
  unfold z_string_url, z_coerce_number_int_positive, z_coerce_number; simpl.
  rewrite Hsu, Hwu, Hn. simpl. by replace (z <=? 0) with false by lia.
Qed.

(** X5. [loadEnvs] returns a configuration exactly when the three settings
    are set and valid, and then it prints nothing: the two URLs are the
    settings as given, the interval is the positive integer the interval
    setting converts to. *)
Theorem loadEnvs_returns_exactly_valid_settings (W : World) (s s' : State)
    (cfg : Env) :
  loadEnvs E W s = (Normal cfg, s')
  <-> s' = s
      /\ process_env W !! "POLL_URL" = Some (POLL_URL cfg)
      /\ is_url E (POLL_URL cfg) = true
      /\ (exists text z,
            process_env W !! "POLL_INTERVAL" = Some text
            /\ Number_string E text = NInt z /\ 0 < z
            /\ POLL_INTERVAL cfg = NInt z)
      /\ process_env W !! "DISCORD_WEBHOOK_URL" = Some (DISCORD_WEBHOOK_URL cfg)
      /\ is_url E (DISCORD_WEBHOOK_URL cfg) = true.
Proof.
  split.
  - intros Hload.
    destruct (decide (invalid_fields E (read_env W) = [])) as [Hvalid|Hinvalid].
    + destruct (EnvSchema_valid _ Hvalid)
        as (source & text & z & webhook & Hs & Hsu & Ht & Hn & Hz & Hw & Hwu & Hschema).
      unfold loadEnvs, try_catch in Hload. rewrite Hschema in Hload.
      unfold ret in Hload. simpl in Hload. inversion Hload; subst. simpl.
      split_and!; try done. by exists text, z.
    + destruct (EnvSchema_invalid E _ Hinvalid) as (found & Hschema & _).
      by rewrite (loadEnvs_invalid E W s found Hschema) in Hload.
  - intros (-> & Hs & Hsu & (text & z & Ht & Hn & Hz & Hi) & Hw & Hwu).
    destruct cfg as [u i w]. simpl in *. rewrite Hi.
    by apply (loadEnvs_accepts W s u text z w).
Qed.

Lemma issues_of_url (field : string) (v : option string) (issue : ZodIssue) :
  issue ∈ issues_of (z_string_url E [Key field] (JStr <$> v)) ->
  path issue = [Key field] /\ url_ok E v = false.
Proof.
  unfold z_string_url. destruct v as [text|]; simpl.
  - destruct (is_url E text); simpl; [by intros ?%elem_of_nil|].
    by intros ->%list_elem_of_singleton.
  - by intros ->%list_elem_of_singleton.
Qed.

Lemma issues_of_interval (field : string) (v : option string) (issue : ZodIssue) :
  issue ∈ issues_of (z_coerce_number_int_positive E [Key field] (JStr <$> v)) ->
  path issue = [Key field] /\ interval_ok E v = false.
Proof.
  unfold z_coerce_number_int_positive, z_coerce_number, interval_ok.
  destruct v as [text|]; simpl.
  - destruct (Number_string E text) as [z| |[]|[]|]; simpl;
      try destruct (z <=? 0) eqn:Hz; simpl;
      rewrite ?elem_of_cons, ?elem_of_nil;
      intros Hin; try done;
      (split; [by destruct_or!; subst|]); try done; lia.
  - by intros ->%list_elem_of_singleton.
Qed.

(** X6. The schema finds fault in invalid settings only: every issue
    [EnvSchema] reports, hence every line [loadEnvs] prints for it, is at the
    path of one of the settings that are missing or invalid. *)
Theorem issues_name_invalid_fields_only (env : RawEnv) (found : list ZodIssue)
    (issue : ZodIssue) :
  EnvSchema E env = Failure {| issues := found |} ->
  issue ∈ found ->
  exists field, path issue = [Key field] /\ field ∈ invalid_fields E env.
Proof.
  unfold EnvSchema, invalid_fields.
  set (a := z_string_url E [Key "POLL_URL"] _).
  set (b := z_coerce_number_int_positive E [Key "POLL_INTERVAL"] _).
  set (c := z_string_url E [Key "DISCORD_WEBHOOK_URL"] _).
  intros Hschema Hin.
  assert (found = issues_of a ++ issues_of b ++ issues_of c) as ->.
  { destruct a, b, c; try discriminate Hschema; by injection Hschema. }
  rewrite !elem_of_app in Hin. destruct Hin as [Hin|[Hin|Hin]].
  - apply issues_of_url in Hin as [Hpath Hbad]. exists "POLL_URL".
    rewrite Hbad. split; [done|set_solver].
  - apply issues_of_interval in Hin as [Hpath Hbad]. exists "POLL_INTERVAL".
    rewrite Hbad. split; [done|set_solver].
  - apply issues_of_url in Hin as [Hpath Hbad]. exists "DISCORD_WEBHOOK_URL".
    rewrite Hbad. split; [done|set_solver].
Qed.

End ConfigExtras.

Section StartupExtras.
Import Zod Schema Config Scenarios Run PollingService.

Lemma issues_name_invalid_fields_only_witness :
  exists field,
    path (not_positive [Key "POLL_INTERVAL"]) = [Key field]
    /\ field ∈ invalid_fields engine (read_env misconfigured_world).
Proof.
  apply (issues_name_invalid_fields_only engine (read_env misconfigured_world)
           [invalid_type [Key "POLL_URL"] "string" None; not_positive [Key "POLL_INTERVAL"]]).
  - reflexivity.
  - apply elem_of_cons. right. apply elem_of_cons. by left.
Defined.

(** X7. The two checks of the interval both run: an interval setting that
    converts to a negative number that is not an integer gets two lines from
    [loadEnvs], one for each check, before it throws. *)
Theorem negative_fraction_reported_twice (E : Engine) (W : World) (s : State)
    (text : string) (neg_inf : bool) :
  process_env W !! "POLL_INTERVAL" = Some text ->
  Number_string E text = (if neg_inf then NInf true else NFrac true) ->
  exists s',
    loadEnvs E W s = (Throw (Error "Invalid environment configuration"), s')
    /\ ConsoleError "- POLL_INTERVAL: Expected integer, received float" ∈ trace s'
    /\ ConsoleError "- POLL_INTERVAL: Number must be greater than 0" ∈ trace s'.
Proof.
  intros Htext Hnumber.
  set (a := z_string_url E [Key "POLL_URL"] (JStr <$> process_env W !! "POLL_URL")).
  set (c := z_string_url E [Key "DISCORD_WEBHOOK_URL"]
              (JStr <$> process_env W !! "DISCORD_WEBHOOK_URL")).
  set (twice := [not_integer [Key "POLL_INTERVAL"]; not_positive [Key "POLL_INTERVAL"]]).
  assert (EnvSchema E (read_env W)
          = Failure {| issues := issues_of a ++ twice ++ issues_of c |}) as Hschema.
  { unfold EnvSchema, read_env; simpl. rewrite Htext. fold a c.
    unfold z_coerce_number_int_positive, z_coerce_number; simpl. rewrite Hnumber.
    by destruct neg_inf, a, c. }
  eexists. split; [by apply loadEnvs_invalid|].
  rewrite trace_record.
  split; apply elem_of_app; right; apply elem_of_cons; right;
    apply list_elem_of_fmap; eexists; (split; [reflexivity|]);
    apply list_elem_of_fmap.
  - exists (not_integer [Key "POLL_INTERVAL"]).
    split; [reflexivity|]. set_solver.
  - exists (not_positive [Key "POLL_INTERVAL"]).
    split; [reflexivity|]. set_solver.
Qed.

Lemma negative_fraction_reported_twice_witness :
  exists s',
    loadEnvs fraction_engine
      (configured_world (settings "https://a.example" "-1.5" "https://b.example")) boot
    = (Throw (Error "Invalid environment configuration"), s')
    /\ ConsoleError "- POLL_INTERVAL: Expected integer, received float" ∈ trace s'
    /\ ConsoleError "- POLL_INTERVAL: Number must be greater than 0" ∈ trace s'.
Proof.
  apply (negative_fraction_reported_twice fraction_engine
           (configured_world (settings "https://a.example" "-1.5" "https://b.example"))
           boot "-1.5" false); reflexivity.
Defined.

(** X8. [main] never throws: whatever the environment holds, it either
    completes, with the service started, or ends the process with exit
    code 1; this also covers an interval whose pattern node-cron refuses. *)
Theorem main_completes_or_exits (E : Engine) (W : World) (s : State) :
  exists s', Index.main E W s = (Normal tt, s') \/ Index.main E W s = (Exit 1, s').
Proof.
  destruct (decide (invalid_fields E (read_env W) = [])) as [Hvalid|Hinvalid].
  - destruct (EnvSchema_valid E _ Hvalid)
      as (source & text & z & webhook & _ & _ & _ & _ & _ & _ & _ & Hschema).
    assert (loadEnvs E W s
            = (Normal {| POLL_URL := source; POLL_INTERVAL := NInt z;
                         DISCORD_WEBHOOK_URL := webhook |}, s)) as Hload.
    { unfold loadEnvs, try_catch. by rewrite Hschema. }
    destruct (Cron.read_pattern E
                ("*/" +:+ Number_toString E (NInt z) +:+ " * * * *")) as [n|] eqn:Hread.
    + eexists. left. unfold Index.main, try_catch. unfold bind at 1. rewrite Hload.
      unfold bind at 1. unfold start, bind, emit, Cron.schedule. cbv beta zeta.
      simpl interval. rewrite Hread. reflexivity.
    + eexists. right. unfold Index.main, try_catch. unfold bind at 1. rewrite Hload.
      unfold bind at 1. unfold start, bind, emit, Cron.schedule. cbv beta zeta.
      simpl interval. rewrite Hread. reflexivity.
  - destruct (EnvSchema_invalid E _ Hinvalid) as (found & Hschema & _).
    eexists. right. unfold Index.main, try_catch. unfold bind at 1.
    rewrite (loadEnvs_invalid E W s found Hschema). reflexivity.
Qed.

(** X9. With the two URL settings valid and the interval setting written as
    the decimal digits of an integer from 1 to 2^53, [main] completes: it
    prints no complaint, launches the first cycle, schedules one task whose
    step is that integer, and then listens for SIGINT and SIGTERM. *)
Theorem main_starts_service (E : Engine) (W : World) (s : State)
    (source webhook : string) (n : Z) :
  process_env W !! "POLL_URL" = Some source ->
  process_env W !! "POLL_INTERVAL" = Some (decimal n) ->
  process_env W !! "DISCORD_WEBHOOK_URL" = Some webhook ->
  is_url E source = true ->
  is_url E webhook = true ->
  0 < n <= MAX_SAFE ->
  Number_string E (decimal n) = NInt n
  /\ Index.main E W s
     = (Normal tt,
        record [ProcessOn "SIGINT"; ProcessOn "SIGTERM"] (started n (decimal n) s)).
Proof.
  intros Hsource Hminutes Hwebhook Hsu Hwu Hn.
  assert (Number_string E (decimal n) = NInt n) as Hnumber.
  { unfold Number_string, decimal_integer.
    pose proof (digits_value_decimal n ltac:(lia)) as Hdigits.
    destruct n as [|p|p]; [lia| |lia]. unfold decimal in *; simpl in *.
    rewrite string_of_to_uint in *.
    pose proof (DecimalPos.Unsigned.to_uint_nonnil p) as Hnil.
    destruct (Pos.to_uint p); try done; simpl in *; rewrite Hdigits;
      unfold is_safe; by replace (Z.abs (Z.pos p) <=? MAX_SAFE) with true by lia. }
  split; [exact Hnumber|].
  assert (loadEnvs E W s
          = (Normal {| POLL_URL := source; POLL_INTERVAL := NInt n;
                       DISCORD_WEBHOOK_URL := webhook |}, s)) as Hload.
  { apply (loadEnvs_accepts E W s source (decimal n) n webhook); try done. lia. }
  unfold Index.main, try_catch. unfold bind at 1. rewrite Hload.
  unfold bind at 1.
  rewrite (start_safe_interval E _ n s); [|done|done].
  unfold bind, emit. by rewrite record_record.
Qed.

Lemma main_starts_service_witness :
  Number_string engine (decimal 15) = NInt 15
  /\ Index.main engine
       (configured_world (settings "https://a.example" (decimal 15) "https://b.example"))
       boot
     = (Normal tt,
        record [ProcessOn "SIGINT"; ProcessOn "SIGTERM"] (started 15 (decimal 15) boot)).
Proof.
  apply (main_starts_service engine
           (configured_world (settings "https://a.example" (decimal 15) "https://b.example"))
           boot "https://a.example" "https://b.example" 15);
    try reflexivity.
  unfold MAX_SAFE. lia.
Defined.

End StartupExtras.

Section CycleExtras.
Import PollingService Cycle Config Run.

Lemma gets_app (a b : list Event) : gets (a ++ b) = gets a ++ gets b.
Proof. unfold gets. apply omap_app. Qed.

Section Generic.
Context (E : Engine) (W : World).
Context {T : Type} `{ToBoolean T}.
Context (schema : json -> Outcome (Zod.SafeParseReturn T)).
Context (config : PollingConfig).

(** What [fetchData] adds to the trace after its request. *)
Lemma fetched_trace (s : State) :
  exists rest,
    trace (fetched E W schema config s)
    = trace s
      ++ [ConsoleLog ("Fetching data from: " +:+ url config); AxiosGet (url config)]
      ++ rest
    /\ gets rest = []
    /\ posts rest
       = match failure_text E (fetch_outcome W schema config s) with
         | Some errorMessage => [(webhookUrl config, error_body W errorMessage s)]
         | None => []
         end
    /\ tasks (fetched E W schema config s) = tasks s
    /\ cronJob (fetched E W schema config s) = cronJob s.
Proof.
  assert (forall o : FetchOutcome T, gets (failure_log E o) = []) as Hlog.
  { intros [v|err|e]; simpl; try done. unfold caught_log.
    destruct (caught_text e); [|done]. destruct (response e) as [answer|]; [|done].
    destruct (status_text answer); [|done]. by destruct (data answer). }
  assert (forall o : FetchOutcome T,
            let logged := record (failure_log E o) (requested config s) in
            let arrived := match failure_text E o with
                           | Some text => error_reported W config text logged
                           | None => logged
                           end in
            exists rest,
              trace arrived
              = trace s
                ++ [ConsoleLog ("Fetching data from: " +:+ url config);
                    AxiosGet (url config)]
                ++ rest
              /\ gets rest = []
              /\ posts rest
                 = match failure_text E o with
                   | Some errorMessage =>
                       [(webhookUrl config, error_body W errorMessage s)]
                   | None => []
                   end
              /\ tasks arrived = tasks s
              /\ cronJob arrived = cronJob s) as Hfailed.
  { intros o. cbv zeta. destruct (failure_text E o) as [text|].
    - eexists. unfold error_reported, requested.
      rewrite !trace_record, trace_clock_read, !trace_record, <- !app_assoc.
      split; [reflexivity|].
      rewrite !gets_app, !posts_app, Hlog, posts_failure_log.
      by destruct (axios_post_result W _ _ _).
    - eexists. unfold requested. rewrite !trace_record, <- !app_assoc.
      split; [reflexivity|]. by rewrite Hlog, posts_failure_log. }
  unfold fetched.
  destruct (fetch_outcome W schema config s) as [data|error|e];
    [by exists []|apply Hfailed..].
Qed.

(** X10. Unless its [catch] throws while it renders the value it caught (a
    value that is no [Error] and that [String] cannot convert, for one),
    [fetchData] returns.  It makes exactly one GET, to the configured
    source, and makes it before anything it posts.  When the request succeeds and the schema accepts the payload, it
    returns the validated value and posts nothing; in every other case it
    returns [null] and posts exactly once, to the webhook.  It never touches
    the scheduler. *)
Theorem fetchData_requests (s : State) :
  escapes (fetch_outcome W schema config s) = None ->
  exists value s' rest,
    fetchData E W schema config s = (Normal value, s')
    /\ trace s'
       = trace s
         ++ [ConsoleLog ("Fetching data from: " +:+ url config); AxiosGet (url config)]
         ++ rest
    /\ gets rest = []
    /\ match fetch_outcome W schema config s with
       | Valid data => value = Some data /\ posts rest = []
       | Invalid _ | Failed _ =>
           value = None /\ exists body, posts rest = [(webhookUrl config, body)]
       end
    /\ tasks s' = tasks s
    /\ cronJob s' = cronJob s.
Proof.
  intros Hconverts.
  destruct (fetched_trace s) as (rest & Htrace & Hgets & Hposts & Htasks & Hjob).
  exists (fetched_value W schema config s), (fetched E W schema config s), rest.
  split; [by rewrite fetchData_spec, Hconverts|].
  split; [exact Htrace|]. split; [exact Hgets|].
  split; [|done].
  rewrite Hposts. unfold fetched_value.
  destruct (fetch_outcome W schema config s) as [data|error|e]; simpl.
  - done.
  - split; [done|by eexists].
  - split; [done|]. simpl in Hconverts.
    destruct (escapes_failure_text (T := T) E e Hconverts) as (errorMessage & _ & Htext).
    cbn [failure_text] in Htext. rewrite Htext. by eexists.
Qed.

(** X11. A valid, truthy value and a transform that only computes: the cycle
    completes after one GET and exactly one POST, which carries to the
    webhook what the transform made of the value and of the formatted
    current time. *)
Theorem valid_value_delivered (f : T -> string -> json) (s : State) (data : T) :
  cycle_outcome W schema config s = Valid data ->
  toBoolean data = true ->
  exists s',
    runPolling E W schema (fun d timestamp => ret (f d timestamp)) config s
    = (Normal tt, s')
    /\ posts (trace s')
       = posts (trace s)
         ++ [(webhookUrl config, f data (format (clock W (S (clock_reads s)))))]
    /\ gets (trace s') = gets (trace s) ++ [url config].
Proof.
  intros Hvalid Htruthy. rewrite runPolling_spec. cbv zeta.
  rewrite Hvalid, Htruthy. cbn [escapes]. rewrite sendToDiscord_spec. unfold ret.
  destruct (fetched_trace (polling_started W s))
    as (rest & Htrace & Hgets & Hposts & _ & _).
  fold (cycle_outcome W schema config s) in Hposts. rewrite Hvalid in Hposts.
  assert (clock_reads (fetched E W schema config (polling_started W s))
          = S (clock_reads s)) as Hclock.
  { unfold fetched. fold (cycle_outcome W schema config s). by rewrite Hvalid. }
  remember (fetched E W schema config (polling_started W s)) as arrived.
  change (clock_reads (record [ConsoleLog "Data received:"] arrived))
    with (clock_reads arrived).
  rewrite Hclock.
  eexists. split; [reflexivity|].
  rewrite !trace_record, trace_clock_read, !trace_record, Htrace.
  unfold polling_started. rewrite trace_record, trace_clock_read.
  rewrite !posts_app, !gets_app, Hposts, Hgets. cbn [failure_text]. simpl.
  destruct (axios_post_result W _ _ _); simpl; by rewrite ?app_nil_r.
Qed.

End Generic.

Lemma fetchData_requests_witness :
  exists value s' rest,
    fetchData Scenarios.engine Scenarios.unreachable_world Scenarios.payload_schema
      (Scenarios.config 5) Scenarios.boot
    = (Normal value, s')
    /\ trace s'
       = trace Scenarios.boot
         ++ [ConsoleLog ("Fetching data from: " +:+ url (Scenarios.config 5));
             AxiosGet (url (Scenarios.config 5))]
         ++ rest
    /\ gets rest = []
    /\ match fetch_outcome Scenarios.unreachable_world Scenarios.payload_schema
               (Scenarios.config 5) Scenarios.boot with
       | Valid data => value = Some data /\ posts rest = []
       | Invalid _ | Failed _ =>
           value = None
           /\ exists body, posts rest = [(webhookUrl (Scenarios.config 5), body)]
       end
    /\ tasks s' = tasks Scenarios.boot
    /\ cronJob s' = cronJob Scenarios.boot.
Proof.
  apply (fetchData_requests Scenarios.engine Scenarios.unreachable_world
           Scenarios.payload_schema (Scenarios.config 5) Scenarios.boot).
  reflexivity.
Defined.

Lemma valid_value_delivered_witness :
  exists s',
    runPolling Scenarios.engine (configured_world ∅) Scenarios.count_schema
      (fun d timestamp => ret (JObj [("content", JNum d); ("at", JStr timestamp)]))
      (Scenarios.config 5) Scenarios.boot
    = (Normal tt, s')
    /\ posts (trace s')
       = posts (trace Scenarios.boot)
         ++ [(webhookUrl (Scenarios.config 5),
              JObj [("content", JNum (NInt 7));
                    ("at", JStr (format (clock (configured_world ∅)
                                           (S (clock_reads Scenarios.boot)))))])]
    /\ gets (trace s') = gets (trace Scenarios.boot) ++ [url (Scenarios.config 5)].
Proof.
  apply (valid_value_delivered Scenarios.engine (configured_world ∅)
           Scenarios.count_schema (Scenarios.config 5)
           (fun d timestamp => JObj [("content", JNum d); ("at", JStr timestamp)])
           Scenarios.boot (NInt 7)); reflexivity.
Defined.

(** X12. In the program of index.ts every cycle completes, after exactly one
    GET to the source followed by exactly one POST to the webhook: the
    metrics message when the payload passes the schema, the error
    notification otherwise.  A cycle never touches the scheduler. *)
Theorem program_cycle_one_request (E : Engine) (W : World) (cfg : PollingConfig)
    (s : State) :
  exists s' rest body,
    Index.runPolling E W cfg s = (Normal tt, s')
    /\ trace s'
       = trace s
         ++ [ConsoleLog ("Polling running at " +:+ toISOString (clock W (clock_reads s)));
             ConsoleLog ("Fetching data from: " +:+ url cfg);
             AxiosGet (url cfg)]
         ++ rest
    /\ gets rest = []
    /\ posts rest = [(webhookUrl cfg, body)]
    /\ tasks s' = tasks s
    /\ cronJob s' = cronJob s.
Proof.
  unfold Index.runPolling. rewrite runPolling_spec. cbv zeta.
  set (schema := safeParse_payload E).
  destruct (fetched_trace E W schema cfg (polling_started W s))
    as (rest & Htrace & Hgets & Hposts & Htasks & Hjob).
  pose proof (payload_outcome_reported E W cfg (polling_started W s)) as Hreported.
  fold schema in Hreported.
  fold (cycle_outcome W schema cfg s) in Hposts, Hreported.
  rewrite Hreported.
  assert (forall e, cycle_outcome W schema cfg s = Failed e ->
            exists text, failure_text E (Failed e : FetchOutcome Payload) = Some text)
    as Htext.
  { intros e He. rewrite He in Hreported. cbn [escapes] in Hreported.
    destruct (escapes_failure_text (T := Payload) E e Hreported) as (? & _ & ?).
    by eexists. }
  destruct (cycle_outcome W schema cfg s) as [data|error|e] eqn:Houtcome;
    [| |destruct (Htext e eq_refl) as [text Hmessage]];
    rewrite ?Hmessage in Hposts; cbn [failure_text] in Hposts.
  - unfold toBoolean, Payload_ToBoolean. rewrite sendToDiscord_spec.
    unfold Index.createDiscordMessage at 1, bind, new_Date, ret.
    destruct (axios_post_result W _ (webhookUrl cfg) _);
      (eexists _, _, _; split; [reflexivity|];
       rewrite !trace_record, !trace_clock_read, !trace_record, Htrace;
       unfold polling_started at 1; rewrite trace_record, trace_clock_read;
       rewrite <- !app_assoc; split; [reflexivity|];
       rewrite !gets_app, !posts_app, Hgets, Hposts; simpl;
       split_and!; done).
  - eexists _, _, _. split; [reflexivity|].
    rewrite trace_record, Htrace. unfold polling_started at 1.
    rewrite trace_record, trace_clock_read, <- !app_assoc. split; [reflexivity|].
    rewrite !gets_app, !posts_app, Hgets, Hposts. simpl.
    rewrite ?app_nil_r. split_and!; done.
  - eexists _, _, _. split; [reflexivity|].
    rewrite trace_record, Htrace. unfold polling_started at 1.
    rewrite trace_record, trace_clock_read, <- !app_assoc. split; [reflexivity|].
    rewrite !gets_app, !posts_app, Hgets, Hposts. simpl.
    rewrite ?app_nil_r. split_and!; done.
Qed.

End CycleExtras.

Section PayloadExtras.
Import Zod Schema Config Cycle Run.
Context (E : Engine).

Lemma get_field_skip (k key : string) (value : json)
    (before after : list (string * json)) :
  key <> k ->
  get_field k (before ++ (key, value) :: after) = get_field k (before ++ after).
Proof.
  intros Hne. induction before as [|[k' v'] rest IH]; simpl.
  - by apply String.eqb_neq in Hne as ->.
  - by rewrite IH.
Qed.

(** X13. [payloadSchema] reads its four keys only: a key it does not name,
    wherever it stands in the object and whatever its value, changes neither
    the verdict nor the parsed value. *)
Theorem payloadSchema_ignores_unknown_keys (key : string) (value : json)
    (before after : list (string * json)) :
  key ∉ payload_keys ->
  payloadSchema E (JObj (before ++ (key, value) :: after))
  = payloadSchema E (JObj (before ++ after)).
Proof.
  unfold payload_keys. intros Hkey. unfold payloadSchema.
  rewrite !get_field_skip; [done|..]; intros ->; apply Hkey; set_solver.
Qed.

(** X14. A missing key fails the parse and is named: when the object lacks
    one of the four keys and [Number] throws on none of the counts it has,
    [payloadSchema.safeParse] returns a failure with an issue at the path of
    that key, "Required" for the id and "Expected number, received nan" for
    a count. *)
Theorem payloadSchema_names_missing_key (key : string)
    (fields : list (string * json)) :
  key ∈ payload_keys ->
  get_field key fields = None ->
  payloadSchema_throws (JObj fields) = false ->
  exists found,
    safeParse_payload E (JObj fields) = Returns (Failure {| issues := found |})
    /\ (if String.eqb key "id" then invalid_type [Key key] "string" None
        else received_nan [Key key]) ∈ found
    /\ exists issue,
         issue ∈ found
         /\ path issue = [Key key]
         /\ message issue = (if String.eqb key "id" then "Required"
                             else "Expected number, received nan").
Proof.
  unfold payload_keys. intros Hkey Hmissing Hreturns.
  unfold safeParse_payload. rewrite Hreturns. unfold payloadSchema.
  set (a := z_string [Key "id"] _).
  set (b := z_coerce_number E [Key "daily_active_users"] _).
  set (c := z_coerce_number E [Key "weekly_active_users"] _).
  set (d := z_coerce_number E [Key "monthly_active_users"] _).
  exists (issues_of a ++ issues_of b ++ issues_of c ++ issues_of d).
  assert (forall issue : ZodIssue,
            issue ∈ issues_of a ++ issues_of b ++ issues_of c ++ issues_of d ->
            path issue = [Key key] ->
            message issue = (if String.eqb key "id" then "Required"
                             else "Expected number, received nan") ->
            exists issue',
              issue' ∈ issues_of a ++ issues_of b ++ issues_of c ++ issues_of d
              /\ path issue' = [Key key]
              /\ message issue' = (if String.eqb key "id" then "Required"
                                   else "Expected number, received nan")) as Hnamed.
  { intros issue ? ? ?. by exists issue. }
  repeat (apply elem_of_cons in Hkey as [->|Hkey]); [..|by apply elem_of_nil in Hkey].
  - assert (a = INVALID [invalid_type [Key "id"] "string" None]) as Ha.
    { unfold a. by rewrite Hmissing. }
    assert (invalid_type [Key "id"] "string" None
              ∈ issues_of a ++ issues_of b ++ issues_of c ++ issues_of d) as Hin.
    { rewrite Ha. simpl. apply elem_of_cons. by left. }
    split; [by rewrite Ha|]. split; [exact Hin|]. by apply (Hnamed _ Hin).
  - assert (b = INVALID [received_nan [Key "daily_active_users"]]) as Hb.
    { unfold b. by rewrite Hmissing. }
    assert (received_nan [Key "daily_active_users"]
              ∈ issues_of a ++ issues_of b ++ issues_of c ++ issues_of d) as Hin.
    { rewrite Hb, !elem_of_app. right. left. simpl. apply elem_of_cons. by left. }
    split; [rewrite Hb; by destruct a|]. split; [exact Hin|]. by apply (Hnamed _ Hin).
  - assert (c = INVALID [received_nan [Key "weekly_active_users"]]) as Hc.
    { unfold c. by rewrite Hmissing. }
    assert (received_nan [Key "weekly_active_users"]
              ∈ issues_of a ++ issues_of b ++ issues_of c ++ issues_of d) as Hin.
    { rewrite Hc, !elem_of_app. right. right. left. simpl. apply elem_of_cons. by left. }
    split; [rewrite Hc; by destruct a, b|]. split; [exact Hin|].
    by apply (Hnamed _ Hin).
  - assert (d = INVALID [received_nan [Key "monthly_active_users"]]) as Hd.
    { unfold d. by rewrite Hmissing. }
    assert (received_nan [Key "monthly_active_users"]
              ∈ issues_of a ++ issues_of b ++ issues_of c ++ issues_of d) as Hin.
    { rewrite Hd, !elem_of_app. right. right. right. simpl. apply elem_of_cons. by left. }
    split; [rewrite Hd; by destruct a, b, c|]. split; [exact Hin|].
    by apply (Hnamed _ Hin).
Qed.

(** Where [Number] throws on a count, so does [payloadSchema.safeParse],
    whatever the other keys hold. *)
Lemma safeParse_payload_throws (input : json) :
  payloadSchema_throws input = true ->
  safeParse_payload E input
  = Throws (TypeError "Cannot convert object to primitive value").
Proof. intros Hthrows. unfold safeParse_payload. by rewrite Hthrows. Qed.




End PayloadExtras.

Section PayloadScenarios.
Import Zod Schema Config Cycle Run Scenarios.

Lemma payloadSchema_ignores_unknown_keys_witness :
  payloadSchema engine
    (JObj ([("id", JStr "u1")] ++ ("region", JStr "eu")
             :: [("daily_active_users", JNull);
                 ("weekly_active_users", JBool true);
                 ("monthly_active_users", JStr "12")]))
  = payloadSchema engine
      (JObj ([("id", JStr "u1")]
               ++ [("daily_active_users", JNull);
                   ("weekly_active_users", JBool true);
                   ("monthly_active_users", JStr "12")])).
Proof.
  apply (payloadSchema_ignores_unknown_keys engine "region" (JStr "eu")).
  unfold payload_keys. intros Hin.
  repeat (apply elem_of_cons in Hin as [Heq|Hin]; [discriminate Heq|]).
  by apply elem_of_nil in Hin.
Defined.

Lemma payloadSchema_names_missing_key_witness :
  exists found,
    safeParse_payload engine (JObj [("id", JStr "u1")])
    = Returns (Failure {| issues := found |})
    /\ (if String.eqb "weekly_active_users" "id"
        then invalid_type [Key "weekly_active_users"] "string" None
        else received_nan [Key "weekly_active_users"]) ∈ found
    /\ exists issue,
         issue ∈ found
         /\ path issue = [Key "weekly_active_users"]
         /\ message issue = (if String.eqb "weekly_active_users" "id" then "Required"
                             else "Expected number, received nan").
Proof.
  apply (payloadSchema_names_missing_key engine "weekly_active_users"
           [("id", JStr "u1")]).
  - unfold payload_keys. do 2 (apply elem_of_cons; right). apply elem_of_cons. by left.
  - reflexivity.
  - reflexivity.
Defined.

(** The id is missing and a count is an object with a key [toString]: the
    parse throws, no issue is returned. *)
Example unconvertible_count_throws :
  safeParse_payload engine
    (JObj [("daily_active_users", JObj [("toString", JNum (NInt 1))])])
  = Throws (TypeError "Cannot convert object to primitive value").
Proof. reflexivity. Qed.

End PayloadScenarios.

Section MessageExtras.
Import Config Cycle Run.

(** X16. [createDiscordMessage] always returns, having read the clock once
    and done nothing else.  Its embed carries a thumbnail exactly when
    THUMBNAIL is set and not empty, and then it is that URL; with or without
    it, the embed has its footer, its timestamp and the three counts, each
    formatted and set in bold. *)
Theorem createDiscordMessage_thumbnail (E : Engine) (W : World) (data : Payload)
    (timestamp : string) (s : State) :
  exists body,
    Index.createDiscordMessage E W data timestamp s = (Normal body, clock_read s)
    /\ (is_Some (embed_get "thumbnail" body)
        <-> exists t, process_env W !! "THUMBNAIL" = Some t /\ t <> "")
    /\ (forall t, process_env W !! "THUMBNAIL" = Some t -> t <> "" ->
          embed_get "thumbnail" body = Some (JObj [("url", JStr t)]))
    /\ embed_get "footer" body
       = Some (JObj [("text", JStr ("📡 Metrics updated • " +:+ timestamp))])
    /\ embed_get "timestamp" body = Some (JStr (toISOString (clock W (clock_reads s))))
    /\ embed_field_values body
       = [JStr ("**" +:+ Index.formatNumber E (daily_active_users data) +:+ "**");
          JStr ("**" +:+ Index.formatNumber E (weekly_active_users data) +:+ "**");
          JStr ("**" +:+ Index.formatNumber E (monthly_active_users data) +:+ "**")].
Proof.
  unfold Index.createDiscordMessage, bind, new_Date, ret.
  eexists. split; [reflexivity|].
  unfold embed_get, embed_field_values; cbn [get_field String.eqb Ascii.eqb Bool.eqb].
  destruct (process_env W !! "THUMBNAIL") as [t|] eqn:Henv.
  - destruct (String.eqb t "") eqn:Hempty; cbn.
    + apply String.eqb_eq in Hempty as ->. split_and!; try done.
      * split; [by intros [? ?]|]. by intros (t & [= <-] & Hne).
      * by intros t [= <-] Hne.
    + apply String.eqb_neq in Hempty. split_and!; try done.
      * split; [|by eexists]. intros _. by exists t.
      * by intros t' [= <-] _.
  - cbn. split_and!; try done.
    split; [by intros [? ?]|]. by intros (t & ? & ?).
Qed.

Lemma without_commas_filter (l : list ascii) :
  without_commas (string_of_list_ascii l)
  = string_of_list_ascii (List.filter not_comma l).
Proof.
  induction l as [|c rest IH]; [done|]. simpl. unfold not_comma at 1.
  destruct (Ascii.eqb c ","%char); simpl; by rewrite IH.
Qed.

Lemma group3_rev_keeps_others (n : nat) (l : list ascii) :
  (length l <= n)%nat ->
  List.filter not_comma (group3_rev l) = List.filter not_comma l.
Proof.
  revert l. induction n as [|n IH]; intros l Hlen.
  - destruct l; [done|simpl in Hlen; lia].
  - destruct l as [|a [|b [|c [|d rest]]]]; try done.
    change (group3_rev (a :: b :: c :: d :: rest))
      with (a :: b :: c :: ","%char :: group3_rev (d :: rest)).
    cbn [List.filter]. change (not_comma ","%char) with false. cbv iota.
    rewrite IH; [done|]. simpl in *. lia.
Qed.

Lemma uint_has_no_comma (d : Decimal.uint) :
  List.filter not_comma (list_ascii_of_string (NilEmpty.string_of_uint d))
  = list_ascii_of_string (NilEmpty.string_of_uint d).
Proof. induction d; simpl; [done|..]; by rewrite IHd. Qed.

Lemma decimal_abs_uint (z : Z) :
  exists d, decimal (Z.abs z) = NilEmpty.string_of_uint d.
Proof.
  destruct z as [|p|p]; simpl.
  - by exists (Decimal.D0 Decimal.Nil).
  - exists (Pos.to_uint p). unfold decimal; simpl. apply string_of_to_uint.
  - exists (Pos.to_uint p). unfold decimal; simpl. apply string_of_to_uint.
Qed.

Lemma without_commas_group_thousands (d : Decimal.uint) :
  without_commas (group_thousands (NilEmpty.string_of_uint d))
  = NilEmpty.string_of_uint d.
Proof.
  unfold group_thousands. rewrite without_commas_filter.
  rewrite List.filter_rev, (group3_rev_keeps_others _ _ (le_n _)).
  rewrite <- List.filter_rev, List.rev_involutive, uint_has_no_comma.
  apply string_of_list_ascii_of_string.
Qed.

(** X17. The thousands separators are all [formatNumber] adds to an integer
    up to 2^53 in size, negative zero apart: with the commas taken out, the
    text is the decimal writing of the number, sign included.  Negative zero
    is not an [NInt]; it is shown as "-0". *)
Theorem formatNumber_keeps_digits (E : Engine) (z : Z) :
  Z.abs z <= MAX_SAFE ->
  without_commas (Index.formatNumber E (NInt z)) = decimal z.
Proof.
  intros Hsafe. unfold Index.formatNumber, toLocaleString, is_safe.
  replace (Z.abs z <=? MAX_SAFE) with true by lia.
  destruct (decimal_abs_uint z) as [d Hd].
  assert (decimal z = (if z <? 0 then "-" else "") +:+ decimal (Z.abs z)) as ->.
  { by destruct z. }
  rewrite Hd. destruct (z <? 0).
  - change (without_commas (String "-" (group_thousands (NilEmpty.string_of_uint d)))
            = String "-" (NilEmpty.string_of_uint d)).
    cbn [without_commas]. change (Ascii.eqb "-" ",") with false. cbv iota.
    by rewrite without_commas_group_thousands.
  - apply without_commas_group_thousands.
Qed.

(** Negative zero keeps its sign. *)
Example negative_zero_shown (E : Engine) : Index.formatNumber E NNegZero = "-0".
Proof. reflexivity. Qed.

Lemma formatNumber_keeps_digits_witness :
  without_commas (Index.formatNumber Scenarios.engine (NInt (-1234567)))
  = decimal (-1234567).
Proof.
  apply (formatNumber_keeps_digits Scenarios.engine (-1234567)).
  unfold MAX_SAFE. lia.
Defined.

End MessageExtras.

Section LastExtras.
Import PollingService Cycle Run Scenarios.

(** X18. When the interval divides 60 the schedule is the one announced: the
    task [start] registers fires exactly at the minutes that are multiples
    of the interval. *)
Theorem dividing_interval_polls_on_time (E : Engine) (cfg : PollingConfig) (n : Z)
    (s : State) :
  interval cfg = NInt n ->
  0 < n ->
  (n | 60) ->
  exists s' task,
    start E cfg s = (Normal tt, s')
    /\ cronJob s' = Some (length (tasks s))
    /\ tasks s' !! length (tasks s) = Some task
    /\ forall t, Cron.fires task t = (t mod n =? 0).
Proof.
  intros Hinterval Hpos Hdiv.
  assert (n <= 60) as Hle by (apply Z.divide_pos_le; [lia|done]).
  exists (started n (decimal n) s), {| step := n; running := true |}.
  split; [apply start_safe_interval; [done|unfold MAX_SAFE; lia]|].
  split; [done|]. split.
  - simpl. by apply list_lookup_middle.
  - intros t. by apply fires_every_step.
Qed.

Lemma dividing_interval_polls_on_time_witness :
  exists s' task,
    start engine (config 15) boot = (Normal tt, s')
    /\ cronJob s' = Some (length (tasks boot))
    /\ tasks s' !! length (tasks boot) = Some task
    /\ forall t, Cron.fires task t = (t mod 15 =? 0).
Proof.
  apply (dividing_interval_polls_on_time engine (config 15) 15 boot);
    [reflexivity|lia|].
  exists 4. reflexivity.
Defined.

(** X19. A value that passes the schema but is falsy (0, an empty string,
    false) is dropped: the cycle completes after its GET with the log line
    of a failed fetch, and makes no request to the webhook, neither the
    message nor an error notification. *)
Theorem falsy_value_dropped (E : Engine) (W : World) {T : Type} `{ToBoolean T}
    (schema : json -> Outcome (Zod.SafeParseReturn T))
    (templateFn : T -> string -> M json) (cfg : PollingConfig) (s : State)
    (data : T) :
  cycle_outcome W schema cfg s = Valid data ->
  toBoolean data = false ->
  runPolling E W schema templateFn cfg s
  = (Normal tt,
     record [ConsoleLog ("Polling running at "
                         +:+ toISOString (clock W (clock_reads s)));
             ConsoleLog ("Fetching data from: " +:+ url cfg);
             AxiosGet (url cfg);
             ConsoleError "Failed to fetch valid data"]
       (clock_read s)).
Proof.
  intros Hvalid Hfalsy. rewrite runPolling_spec. cbv zeta.
  rewrite Hvalid, Hfalsy. cbn [escapes]. unfold fetched.
  fold (cycle_outcome W schema cfg s). rewrite Hvalid. cbn [failure_text].
  unfold requested, polling_started. by rewrite !record_record.
Qed.

Lemma falsy_value_dropped_witness :
  runPolling engine zero_world count_schema count_message (config 5) boot
  = (Normal tt,
     record [ConsoleLog ("Polling running at "
                         +:+ toISOString (clock zero_world (clock_reads boot)));
             ConsoleLog ("Fetching data from: " +:+ url (config 5));
             AxiosGet (url (config 5));
             ConsoleError "Failed to fetch valid data"]
       (clock_read boot)).
Proof.
  apply (falsy_value_dropped engine zero_world count_schema count_message
           (config 5) boot (NInt 0)); reflexivity.
Defined.

End LastExtras.
